(** * Cygnus: the deterministic-tractography notebook

    The repository is one Jupyter notebook,
    [[3]Deterministic_tractography.ipynb].  Its code cells are a Python
    script over the DIPY library: every statement imports a name, calls a
    library function, reads an attribute, compares the label volume with a
    constant, or runs a shell command.

    The notebook is embedded as a program in a small monad:

    - the Python global namespace is threaded through the cells as a list
      of bindings, the latest first (a name that is read before it is
      bound raises [NameError], as in Python);
    - everything the notebook asks of its environment (imports, attribute
      reads, calls, operator dispatch, shell escapes) is an [event]; the
      environment answers with a value or with an exception;
    - the library itself is not part of the repository: it is a parameter of
      the semantics, a relation between an event, the state of the world
      before, the answer and the state of the world after. *)

From Stdlib Require Import ZArith NArith List Bool Lia.
From stdpp Require Import base strings list.

Open Scope string_scope.

(** ** Values *)

(** A numpy array: its shape and its items in row-major order. *)
Record ndarray (A : Type) : Type := NdArray {
  shape : list nat;
  items : list A
}.
Arguments NdArray {A} _ _.
Arguments shape {A} _.
Arguments items {A} _.

#[local] Set Warnings "-register-all".

(** Python values as far as the notebook handles them.  A float literal
    [VFloat m e] is the decimal [m * 10^e] as written in the source
    ([.8] is [VFloat 8 (-1)]).  [VObj] is an object of the library whose
    content the notebook never inspects. *)
Inductive pyval : Type :=
| VNone
| VBool (b : bool)
| VInt (n : Z)
| VFloat (m e : Z)
| VStr (s : string)
| VTuple (vs : list pyval)
| VList (vs : list pyval)
| VRange (lo hi : Z)
| VIntArray (a : ndarray Z)
| VBoolArray (a : ndarray bool)
| VObj (id : N).

(** Exceptions raised by the interpreter on behalf of the notebook's own
    statements, by their class.  The string of a [TypeError] or a
    [ValueError] names the cause; it is not the text of the interpreter's
    message. *)
Inductive exn : Type :=
| NameError (name : string)
| TypeError (msg : string)
| ValueError (msg : string).

(** ** Events

    [Call callee f args kwargs] carries the callee as written in the source
    ([callee]) next to the function object it evaluates to ([f]). *)
Inductive event : Type :=
| ImportFrom (module name : string)
| GetAttr (obj : pyval) (attr : string)
| Call (callee : string) (f : pyval) (args : list pyval)
       (kwargs : list (string * pyval))
| BinOp (op : string) (a b : pyval)
| Shell (cmd : string).

(** ** Programs *)

Inductive prog (A : Type) : Type :=
| Ret (a : A)
| Raise (e : exn)
| Do (ev : event) (k : pyval -> prog A).
Arguments Ret {A} _.
Arguments Raise {A} _.
Arguments Do {A} _ _.

Fixpoint pbind {A B : Type} (p : prog A) (f : A -> prog B) : prog B :=
  match p with
  | Ret a => f a
  | Raise e => Raise e
  | Do ev k => Do ev (fun v => pbind (k v) f)
  end.

(** The global namespace of the kernel.  A binding shadows the older
    bindings of its name. *)
Definition namespace : Type := list (string * pyval).

Fixpoint lookup_name (x : string) (g : namespace) : option pyval :=
  match g with
  | [] => None
  | (y, v) :: g' => if String.eqb x y then Some v else lookup_name x g'
  end.

(** A notebook computation: a program over the global namespace. *)
Definition nb (A : Type) : Type := namespace -> prog (A * namespace).

Definition ret {A : Type} (a : A) : nb A := fun g => Ret (a, g).

Definition bind {A B : Type} (m : nb A) (f : A -> nb B) : nb B :=
  fun g => pbind (m g) (fun '(a, g') => f a g').

Definition raise {A : Type} (e : exn) : nb A := fun _ => Raise e.

Definition perform (ev : event) : nb pyval :=
  fun g => Do ev (fun v => Ret (v, g)).

Declare Scope nb_scope.
Delimit Scope nb_scope with nb.
Notation "x <- m ; k" := (bind m (fun x => k))
  (at level 100, m at next level, right associativity) : nb_scope.
Notation "m ;; k" := (bind m (fun _ => k))
  (at level 100, right associativity) : nb_scope.
Open Scope nb_scope.

(** ** Python constructs used by the notebook *)

(** Reading a global name. *)
Definition name (x : string) : nb pyval :=
  fun g => match lookup_name x g with
           | Some v => Ret (v, g)
           | None => Raise (NameError x)
           end.

(** Binding a global name. *)
Definition store (x : string) (v : pyval) : nb unit :=
  fun g => Ret (tt, (x, v) :: g).

Definition const (v : pyval) : nb pyval := ret v.

(** Arguments are evaluated left to right. *)
Fixpoint eval_args (es : list (nb pyval)) : nb (list pyval) :=
  match es with
  | [] => ret []
  | e :: es' => v <- e ; vs <- eval_args es' ; ret (v :: vs)
  end.

Fixpoint eval_kwargs (es : list (string * nb pyval))
  : nb (list (string * pyval)) :=
  match es with
  | [] => ret []
  | (k, e) :: es' => v <- e ; vs <- eval_kwargs es' ; ret ((k, v) :: vs)
  end.

(** [f(args, kwargs)] for an imported name [f]. *)
Definition call_fn (f : string) (args : list (nb pyval))
    (kwargs : list (string * nb pyval)) : nb pyval :=
  fv <- name f ;
  vs <- eval_args args ;
  ks <- eval_kwargs kwargs ;
  perform (Call f fv vs ks).

(** [x.a] for a global [x]. *)
Definition attr (x a : string) : nb pyval :=
  ov <- name x ; perform (GetAttr ov a).

(** [x.a(args, kwargs)] for a global [x]. *)
Definition call_attr (x a : string) (args : list (nb pyval))
    (kwargs : list (string * nb pyval)) : nb pyval :=
  fv <- attr x a ;
  vs <- eval_args args ;
  ks <- eval_kwargs kwargs ;
  perform (Call (x ++ "." ++ a) fv vs ks).

(** [from module import n1, n2, ...] *)
Fixpoint from_import (module : string) (names : list string) : nb unit :=
  match names with
  | [] => ret tt
  | n :: ns => v <- perform (ImportFrom module n) ; store n v ;;
               from_import module ns
  end.

(** [x = e] *)
Definition assign (x : string) (e : nb pyval) : nb unit :=
  v <- e ; store x v.

(** [n] consecutive pieces of [size] items each. *)
Fixpoint chunks {A : Type} (n size : nat) (l : list A) : list (list A) :=
  match n with
  | O => []
  | S n' => take size l :: chunks n' size (drop size l)
  end.

(** Iterating over an array goes along its first axis: the items of a
    one-dimensional array, the sub-arrays of a larger one; an array of no
    dimension is not iterable. *)
Definition array_rows {A : Type} (scalar : A -> pyval)
    (array : ndarray A -> pyval) (a : ndarray A) : option (list pyval) :=
  match shape a with
  | [] => None
  | [n] => Some (map scalar (take n (items a)))
  | n :: rest =>
      Some (map (fun row => array (NdArray rest row))
              (chunks n (foldr Nat.mul 1%nat rest) (items a)))
  end.

(** The items that iterating over a value yields, for the values that
    the interpreter can iterate over: the items of a tuple or a list, the
    characters of a string, the integers of a range, the rows of an
    array.  [None], booleans and numbers are not iterable, and library
    objects are taken not to be. *)
Definition sequence_items (v : pyval) : option (list pyval) :=
  match v with
  | VTuple vs | VList vs => Some vs
  | VStr s =>
      Some (map (fun c => VStr (String c EmptyString))
              (String.list_ascii_of_string s))
  | VRange lo hi => Some (map VInt (seqZ lo (hi - lo)))
  | VIntArray a => array_rows VInt VIntArray a
  | VBoolArray a => array_rows VBool VBoolArray a
  | VNone | VBool _ | VInt _ | VFloat _ _ | VObj _ => None
  end.

Fixpoint store_all (xs : list string) (vs : list pyval) : nb unit :=
  match xs, vs with
  | [], [] => ret tt
  | x :: xs', v :: vs' => store x v ;; store_all xs' vs'
  | [], _ :: _ => raise (ValueError "too many values to unpack")
  | _ :: _, [] => raise (ValueError "not enough values to unpack")
  end.

(** [x1, ..., xn = e] *)
Definition assign_tuple (xs : list string) (e : nb pyval) : nb unit :=
  v <- e ;
  match sequence_items v with
  | Some vs => store_all xs vs
  | None => raise (TypeError "cannot unpack non-iterable object")
  end.

(** An expression statement. *)
Definition expr_stmt (e : nb pyval) : nb unit := _ <- e ; ret tt.

(** Truth value of a condition.  Library objects have the default truth
    value of a Python object. *)
Definition truthy (v : pyval) : exn + bool :=
  match v with
  | VNone => inr false
  | VBool b => inr b
  | VInt n => inr (negb (n =? 0)%Z)
  | VFloat m _ => inr (negb (m =? 0)%Z)
  | VStr s => inr (negb (String.eqb s ""))
  | VTuple vs | VList vs => inr (negb (Nat.eqb (length vs) 0))
  | VRange lo hi => inr (lo <? hi)%Z
  | VIntArray a =>
      match items a with
      | [] => inr false
      | [x] => inr (negb (x =? 0)%Z)
      | _ => inl (ValueError "truth value of an array is ambiguous")
      end
  | VBoolArray a =>
      match items a with
      | [] => inr false
      | [x] => inr x
      | _ => inl (ValueError "truth value of an array is ambiguous")
      end
  | VObj _ => inr true
  end.

(** [if c: body] *)
Definition if_ (c : nb pyval) (body : nb unit) : nb unit :=
  v <- c ;
  match truthy v with
  | inl e => raise e
  | inr true => body
  | inr false => ret tt
  end.

(** *** Operators on the label volume *)

Definition int_array_of (v : pyval) : option (ndarray Z) :=
  match v with VIntArray a => Some a | _ => None end.

Definition int_of (v : pyval) : option Z :=
  match v with VInt n => Some n | _ => None end.

Definition bool_array_of (v : pyval) : option (ndarray bool) :=
  match v with VBoolArray a => Some a | _ => None end.

(** [a == n] on an integer array and an integer: elementwise. *)
Definition array_eq_scalar (a : ndarray Z) (n : Z) : ndarray bool :=
  NdArray (shape a) (map (fun x => (x =? n)%Z) (items a)).

(** [a | b] on two boolean arrays of one shape: elementwise. *)
Definition array_or (a b : ndarray bool) : ndarray bool :=
  NdArray (shape a) (zip_with orb (items a) (items b)).

Definition same_shape (a b : ndarray bool) : bool :=
  bool_decide (shape a = shape b).

(** [e1 == e2]: computed here on an integer array and an integer, left to
    the classes of the operands otherwise. *)
Definition py_eq (e1 e2 : nb pyval) : nb pyval :=
  a <- e1 ; b <- e2 ;
  match int_array_of a, int_of b with
  | Some arr, Some n => ret (VBoolArray (array_eq_scalar arr n))
  | _, _ => perform (BinOp "==" a b)
  end.

(** [e1 | e2]: computed here on two boolean arrays of one shape, left to
    the classes of the operands otherwise. *)
Definition py_or (e1 e2 : nb pyval) : nb pyval :=
  a <- e1 ; b <- e2 ;
  match bool_array_of a, bool_array_of b with
  | Some x, Some y =>
      if same_shape x y then ret (VBoolArray (array_or x y))
      else perform (BinOp "|" a b)
  | _, _ => perform (BinOp "|" a b)
  end.

(** [!cmd] *)
Definition shell (cmd : string) : nb unit :=
  _ <- perform (Shell cmd) ; ret tt.

(** ** The code cells, by their position in the notebook file *)

Definition cell_04 : nb unit :=
  from_import "dipy.core.gradients" ["gradient_table"] ;;
  from_import "dipy.data" ["get_fnames"] ;;
  from_import "dipy.io.gradients" ["read_bvals_bvecs"] ;;
  from_import "dipy.io.image" ["load_nifti"] ;;
  assign_tuple ["hardi_fname"; "hardi_bval_fname"; "hardi_bvec_fname"]
    (call_fn "get_fnames" [const (VStr "stanford_hardi")] []) ;;
  assign_tuple ["data"; "affine"; "hardi_img"]
    (call_fn "load_nifti" [name "hardi_fname"]
       [("return_img", const (VBool true))]) ;;
  assign_tuple ["bvals"; "bvecs"]
    (call_fn "read_bvals_bvecs"
       [name "hardi_bval_fname"; name "hardi_bvec_fname"] []) ;;
  assign "gtab" (call_fn "gradient_table" [name "bvals"; name "bvecs"] []).

Definition cell_06 : nb unit :=
  from_import "dipy.segment.mask" ["median_otsu"] ;;
  assign_tuple ["maskdata"; "mask"]
    (call_fn "median_otsu" [name "data"]
       [("vol_idx", const (VRange 0 9));
        ("numpass", const (VInt 1));
        ("dilate", const (VInt 5))]).

Definition cell_08 : nb unit :=
  from_import "dipy.io.image" ["load_nifti_data"] ;;
  assign "label_fname"
    (call_fn "get_fnames" [const (VStr "stanford_labels")] []) ;;
  assign "labels" (call_fn "load_nifti_data" [name "label_fname"] []) ;;
  assign "white_matter"
    (py_or (py_eq (name "labels") (const (VInt 1)))
           (py_eq (name "labels") (const (VInt 2)))).

Definition cell_10 : nb unit :=
  from_import "dipy.reconst.dti" ["TensorModel"] ;;
  assign "dti_model" (call_fn "TensorModel" [name "gtab"] []).

Definition cell_12 : nb unit :=
  from_import "dipy.direction" ["peaks_from_model"] ;;
  from_import "dipy.data" ["default_sphere"] ;;
  assign "dti_peaks"
    (call_fn "peaks_from_model"
       [name "dti_model"; name "maskdata"; name "default_sphere"]
       [("relative_peak_threshold", const (VFloat 8 (-1)));
        ("min_separation_angle", const (VInt 45));
        ("mask", name "white_matter")]).

Definition cell_14 : nb unit :=
  from_import "dipy.viz" ["window"; "actor"; "has_fury"] ;;
  if_ (name "has_fury")
    (assign "scene" (call_attr "window" "Scene" [] []) ;;
     expr_stmt
       (call_attr "scene" "add"
          [call_attr "actor" "peak_slicer"
             [attr "dti_peaks" "peak_dirs"; attr "dti_peaks" "peak_values"]
             [("colors", const VNone)]] []) ;;
     expr_stmt
       (call_attr "window" "record" [name "scene"]
          [("out_path", const (VStr "dti_direction_field.png"));
           ("size", const (VTuple [VInt 900; VInt 900]))]) ;;
     expr_stmt
       (call_attr "window" "show" [name "scene"]
          [("size", const (VTuple [VInt 800; VInt 800]))])).

Definition cell_17 : nb unit :=
  from_import "dipy.tracking" ["utils"] ;;
  assign "seed_mask" (py_eq (name "labels") (const (VInt 2))) ;;
  assign "seeds"
    (call_attr "utils" "seeds_from_mask" [name "seed_mask"; name "affine"]
       [("density", const (VList [VInt 3; VInt 3; VInt 3]))]).

Definition cell_20 : nb unit :=
  assign "dti_fit" (call_attr "dti_model" "fit" [name "maskdata"] []) ;;
  assign "fa" (attr "dti_fit" "fa").

Definition cell_22 : nb unit :=
  from_import "dipy.tracking.stopping_criterion"
    ["ThresholdStoppingCriterion"] ;;
  assign "stopping_criterion"
    (call_fn "ThresholdStoppingCriterion"
       [name "fa"; const (VFloat 2 (-1))] []).

Definition cell_25 : nb unit :=
  from_import "dipy.tracking.local_tracking" ["LocalTracking"] ;;
  assign "streamlines_generator"
    (call_fn "LocalTracking"
       [name "dti_peaks"; name "stopping_criterion"; name "seeds"]
       [("affine", name "affine"); ("step_size", const (VFloat 5 (-1)))]).

Definition cell_27 : nb unit :=
  from_import "dipy.tracking.streamline" ["Streamlines"] ;;
  assign "streamlines"
    (call_fn "Streamlines" [name "streamlines_generator"] []).

Definition cell_29 : nb unit :=
  from_import "dipy.viz" ["colormap"] ;;
  if_ (name "has_fury")
    (assign "color"
       (call_attr "colormap" "line_colors" [name "streamlines"] []) ;;
     assign "streamlines_actor"
       (call_attr "actor" "line"
          [name "streamlines";
           call_attr "colormap" "line_colors" [name "streamlines"] []] []) ;;
     assign "scene" (call_attr "window" "Scene" [] []) ;;
     expr_stmt (call_attr "scene" "add" [name "streamlines_actor"] []) ;;
     expr_stmt
       (call_attr "window" "record" [name "scene"]
          [("out_path", const (VStr "dti_tractogram.png"));
           ("size", const (VTuple [VInt 800; VInt 800]))]) ;;
     expr_stmt (call_attr "window" "show" [name "scene"] [])).

Definition cell_31 : nb unit :=
  from_import "dipy.io.stateful_tractogram" ["Space"; "StatefulTractogram"] ;;
  from_import "dipy.io.streamline" ["save_trk"] ;;
  assign "sft"
    (call_fn "StatefulTractogram"
       [name "streamlines"; name "hardi_img"; attr "Space" "RASMM"] []) ;;
  expr_stmt
    (call_fn "save_trk"
       [name "sft"; const (VStr "dti_CC_tractography_deterministic.trk");
        name "streamlines"] []).

Definition cell_32 : nb unit := shell "dir".
Definition cell_33 : nb unit := shell "dipy_horizon dti_CC*trk".
Definition cell_34 : nb unit := shell "dipy_horizon dti_CC*trk tensor_fa.nii.gz".
(** Cell 35 holds comments only, cell 39 is empty. *)
Definition cell_35 : nb unit := ret tt.
Definition cell_36 : nb unit := shell "dipy_horizon dti_CC*trk tensor_md.nii.gz".
Definition cell_37 : nb unit := shell "dipy_horizon dti_CC*trk tensor_ad.nii.gz".
Definition cell_38 : nb unit := shell "dipy_horizon dti_CC*trk tensor_rd.nii.gz".
Definition cell_39 : nb unit := ret tt.

Definition code_cells : list (nb unit) :=
  [cell_04; cell_06; cell_08; cell_10; cell_12; cell_14; cell_17; cell_20;
   cell_22; cell_25; cell_27; cell_29; cell_31; cell_32; cell_33; cell_34;
   cell_35; cell_36; cell_37; cell_38; cell_39].

(** Running cells one after the other in one kernel; an exception ends
    the run. *)
Fixpoint run_cells (cs : list (nb unit)) : nb unit :=
  match cs with
  | [] => ret tt
  | c :: cs' => c ;; run_cells cs'
  end.

(** The whole notebook, run top to bottom in a fresh kernel. *)
Definition notebook : prog (unit * namespace) :=
  run_cells code_cells [].

(** ** Semantics *)

(** What the environment answers: a value, or the name of the exception
    it raised. *)
Definition answer : Type := pyval + string.

(** How a run ends: all cells done, an exception of the notebook's own
    statements, or an exception raised by the environment while it
    handled an event. *)
Inductive outcome (A : Type) : Type :=
| Done (a : A)
| Raised (e : exn)
| Failed (ev : event) (e : string).
Arguments Done {A} _.
Arguments Raised {A} _.
Arguments Failed {A} _ _.

(** The trace of a run: the events in the order they were issued, each
    with its answer. *)
Definition trace : Type := list (event * answer).

Section Semantics.
Variable World : Type.

(** The library and the interpreter around it: [lib ev w r w'] when
    event [ev] in world [w] may be answered by [r], leaving world [w']. *)
Variable lib : event -> World -> answer -> World -> Prop.

Inductive exec {A : Type}
  : prog A -> World -> trace -> outcome A -> World -> Prop :=
| exec_ret a w : exec (Ret a) w [] (Done a) w
| exec_raise e w : exec (Raise e) w [] (Raised e) w
| exec_ok ev k w v w1 t o w2 :
    lib ev w (inl v) w1 ->
    exec (k v) w1 t o w2 ->
    exec (Do ev k) w ((ev, inl v) :: t) o w2
| exec_err ev k w e w1 :
    lib ev w (inr e) w1 ->
    exec (Do ev k) w [(ev, inr e)] (Failed ev e) w1.
End Semantics.
Arguments exec {World} lib {A} _ _ _ _ _.

(** A library given as a function, and the run it determines. *)
Fixpoint run {World A : Type} (libf : event -> World -> answer * World)
    (p : prog A) (w : World) : trace * outcome A * World :=
  match p with
  | Ret a => ([], Done a, w)
  | Raise e => ([], Raised e, w)
  | Do ev k =>
      match libf ev w with
      | (inl v, w1) =>
          let '(t, o, w2) := run libf (k v) w1 in ((ev, inl v) :: t, o, w2)
      | (inr e, w1) => ([(ev, inr e)], Failed ev e, w1)
      end
  end.

Definition graph {World : Type} (libf : event -> World -> answer * World)
  : event -> World -> answer -> World -> Prop :=
  fun ev w r w1 => libf ev w = (r, w1).

(** ** Properties of all runs, whatever the library does *)

(** [always P p]: every event that [p] can issue satisfies [P]. *)
Fixpoint always {A : Type} (P : event -> Prop) (p : prog A) : Prop :=
  match p with
  | Ret _ | Raise _ => True
  | Do ev k => P ev /\ forall v, always P (k v)
  end.

(** [completes p Q]: every run of [p] that gets through all its
    statements has a trace and a result satisfying [Q]. *)
Fixpoint completes {A : Type} (p : prog A) (Q : trace -> A -> Prop) : Prop :=
  match p with
  | Ret a => Q [] a
  | Raise _ => True
  | Do ev k => forall v, completes (k v) (fun t a => Q ((ev, inl v) :: t) a)
  end.

(** [wp p Q]: every run of [p], finished or not, has a trace and an
    outcome satisfying [Q]. *)
Fixpoint wp {A : Type} (p : prog A) (Q : trace -> outcome A -> Prop) : Prop :=
  match p with
  | Ret a => Q [] (Done a)
  | Raise e => Q [] (Raised e)
  | Do ev k =>
      (forall e, Q [(ev, inr e)] (Failed ev e)) /\
      (forall v, wp (k v) (fun t o => Q ((ev, inl v) :: t) o))
  end.

(** ** Reading a trace *)

(** The events that only the visualisation statements issue: the imports
    from [dipy.viz], and the attribute reads and calls of the two
    [if has_fury:] blocks. *)
Definition visual (ev : event) : bool :=
  match ev with
  | ImportFrom m _ => String.eqb m "dipy.viz"
  | GetAttr _ a =>
      existsb (String.eqb a)
        ["Scene"; "add"; "peak_slicer"; "peak_dirs"; "peak_values";
         "record"; "show"; "line_colors"; "line"]
  | Call c _ _ _ =>
      existsb (String.eqb c)
        ["window.Scene"; "scene.add"; "actor.peak_slicer"; "window.record";
         "window.show"; "colormap.line_colors"; "actor.line"]
  | BinOp _ _ _ | Shell _ => false
  end.

(** The run without its visualisation events. *)
Definition tractography (t : trace) : trace :=
  List.filter (fun en => negb (visual (fst en))) t.

Definition callee_of (ev : event) : option string :=
  match ev with
  | Call c _ _ _ => Some c
  | _ => None
  end.

(** The callees of the calls of a run, in order. *)
Fixpoint calls (t : trace) : list string :=
  match t with
  | [] => []
  | (ev, _) :: t' =>
      match callee_of ev with
      | Some c => c :: calls t'
      | None => calls t'
      end
  end.

(** The calls to [c] that returned: arguments, keyword arguments, result. *)
Fixpoint returned (c : string) (t : trace)
  : list (list pyval * list (string * pyval) * pyval) :=
  match t with
  | [] => []
  | (Call c' _ args kwargs, inl v) :: t' =>
      if String.eqb c c' then (args, kwargs, v) :: returned c t'
      else returned c t'
  | _ :: t' => returned c t'
  end.

(** The answer to [from module import name], if it succeeded. *)
Fixpoint imported (module name : string) (t : trace) : option pyval :=
  match t with
  | [] => None
  | (ImportFrom m n, inl v) :: t' =>
      if String.eqb m module && String.eqb n name then Some v
      else imported module name t'
  | _ :: t' => imported module name t'
  end.

(** The shell commands of a run, in order. *)
Fixpoint shell_commands (t : trace) : list string :=
  match t with
  | [] => []
  | (Shell cmd, _) :: t' => cmd :: shell_commands t'
  | _ :: t' => shell_commands t'
  end.

(** A shell escape runs its command in a child process. *)
Definition starts_process (ev : event) : bool :=
  match ev with
  | Shell _ => true
  | _ => false
  end.

(** Keyword argument [k] of a call. *)
Fixpoint kwarg (k : string) (kwargs : list (string * pyval)) : option pyval :=
  match kwargs with
  | [] => None
  | (k', v) :: rest => if String.eqb k k' then Some v else kwarg k rest
  end.

(** The steps of the pipeline, by the callee of each library call, in the
    order of the cells. *)
Definition pipeline_order : list string :=
  ["get_fnames"; "load_nifti"; "read_bvals_bvecs"; "gradient_table";
   "median_otsu";
   "get_fnames"; "load_nifti_data";
   "TensorModel"; "peaks_from_model";
   "utils.seeds_from_mask";
   "dti_model.fit"; "ThresholdStoppingCriterion";
   "LocalTracking"; "Streamlines";
   "StatefulTractogram"; "save_trk"].

(** The calls of the first visualisation cell and of the second. *)
Definition direction_field_calls : list string :=
  ["window.Scene"; "actor.peak_slicer"; "scene.add"; "window.record";
   "window.show"].

Definition tractogram_calls : list string :=
  ["colormap.line_colors"; "colormap.line_colors"; "actor.line";
   "window.Scene"; "scene.add"; "window.record"; "window.show"].

(** The calls of a finished run, by the truth value of [has_fury]. *)
Definition expected_calls (fury : bool) : list string :=
  take 9 pipeline_order
  ++ (if fury then direction_field_calls else [])
  ++ take 5 (drop 9 pipeline_order)
  ++ (if fury then tractogram_calls else [])
  ++ drop 14 pipeline_order.

Definition trailing_commands : list string :=
  ["dir"; "dipy_horizon dti_CC*trk";
   "dipy_horizon dti_CC*trk tensor_fa.nii.gz";
   "dipy_horizon dti_CC*trk tensor_md.nii.gz";
   "dipy_horizon dti_CC*trk tensor_ad.nii.gz";
   "dipy_horizon dti_CC*trk tensor_rd.nii.gz"].

(** ** Two runs that differ in their visualisation only *)

(** [sim p q]: [p] and [q] issue the same events with the same
    continuations, up to visualisation events that either may issue on
    its own. *)
Inductive sim {A B : Type} : prog A -> prog B -> Prop :=
| sim_ret a b : sim (Ret a) (Ret b)
| sim_raise_l e q : sim (Raise e) q
| sim_raise_r p e : sim p (Raise e)
| sim_both ev k1 k2 :
    visual ev = false ->
    (forall v, sim (k1 v) (k2 v)) ->
    sim (Do ev k1) (Do ev k2)
| sim_left ev k q :
    visual ev = true ->
    (forall v, sim (k v) q) ->
    sim (Do ev k) q
| sim_right p ev k :
    visual ev = true ->
    (forall v, sim p (k v)) ->
    sim p (Do ev k).

(** ** A small library to run the notebook on

    A stand-in for DIPY and the shell, used to run the notebook on
    concrete data: a 2 x 2 x 1 label volume, opaque objects for
    everything the notebook only passes along. *)

Record toy_world : Type := ToyWorld {
  fury : bool;                (* is the fury package installed *)
  trk_files : list string;    (* tractography files written so far *)
  png_files : list string     (* images written so far *)
}.

Definition toy_labels : ndarray Z := NdArray [2; 2; 1]%nat [0; 1; 2; 2]%Z.

(** The seeds of a mask at a density: kept as the mask and the number of
    seeds per voxel. *)
Definition toy_seeds (args : list pyval) (kwargs : list (string * pyval))
  : pyval :=
  match args, kwarg "density" kwargs with
  | VBoolArray m :: _, Some (VList [VInt a; VInt b; VInt c]) =>
      VTuple [VBoolArray m; VInt (a * b * c)]
  | _, _ => VObj 20
  end.

Definition toy_seeds_in_voxel (s : pyval) (i : nat) : Z :=
  match s with
  | VTuple [VBoolArray m; VInt n] =>
      if default false (items m !! i) then n else 0%Z
  | _ => 0%Z
  end.

(** The peaks of a model under a mask: kept as the mask. *)
Definition toy_peaks (kwargs : list (string * pyval)) : pyval :=
  match kwarg "mask" kwargs with
  | Some (VBoolArray m) => VTuple [VStr "peaks"; VBoolArray m]
  | _ => VObj 21
  end.

Definition toy_peak_at (r : pyval) (i : nat) : bool :=
  match r with
  | VTuple [VStr _; VBoolArray m] => default false (items m !! i)
  | _ => false
  end.

Definition toy_call (c : string) (args : list pyval)
    (kwargs : list (string * pyval)) : pyval :=
  if String.eqb c "get_fnames" then
    match args with
    | [VStr "stanford_hardi"] =>
        VTuple [VStr "HARDI150.nii.gz"; VStr "HARDI150.bval";
                VStr "HARDI150.bvec"]
    | _ => VStr "aparc-reduced.nii.gz"
    end
  else if String.eqb c "load_nifti" then VTuple [VObj 1; VObj 2; VObj 3]
  else if String.eqb c "read_bvals_bvecs" then VTuple [VObj 4; VObj 5]
  else if String.eqb c "median_otsu" then VTuple [VObj 6; VObj 7]
  else if String.eqb c "load_nifti_data" then VIntArray toy_labels
  else if String.eqb c "utils.seeds_from_mask" then toy_seeds args kwargs
  else if String.eqb c "peaks_from_model" then toy_peaks kwargs
  else if String.eqb c "Streamlines" then VObj 30
  else if String.eqb c "save_trk" then VNone
  else VObj 10.

(** As in DIPY, [dipy.viz] binds [has_fury] always and the modules of
    fury ([window], [actor], [colormap]) only when fury is installed:
    without it, importing one of them raises [ImportError]. *)
Definition toy_answer (b : bool) (ev : event) : answer :=
  match ev with
  | ImportFrom m n =>
      if String.eqb m "dipy.viz" then
        if String.eqb n "has_fury" then inl (VBool b)
        else if b then inl (VObj 0) else inr "ImportError"
      else inl (VObj 0)
  | GetAttr _ _ => inl (VObj 9)
  | Call c _ args kwargs => inl (toy_call c args kwargs)
  | BinOp _ _ _ => inl (VObj 8)
  | Shell _ => inl VNone
  end.

Definition toy_effect (ev : event) (w : toy_world) : toy_world :=
  match ev with
  | Call c _ args kwargs =>
      if String.eqb c "save_trk" then
        match args with
        | _ :: VStr f :: _ =>
            ToyWorld (fury w) (trk_files w ++ [f]) (png_files w)
        | _ => w
        end
      else if String.eqb c "window.record" then
        match kwarg "out_path" kwargs with
        | Some (VStr f) =>
            ToyWorld (fury w) (trk_files w) (png_files w ++ [f])
        | _ => w
        end
      else w
  | _ => w
  end.

Definition toy_lib (ev : event) (w : toy_world) : answer * toy_world :=
  (toy_answer (fury w) ev, toy_effect ev w).

(** A kernel with fury, one without, and one with fury and an image
    left by an earlier session. *)
Definition with_fury : toy_world := ToyWorld true [] [].
Definition without_fury : toy_world := ToyWorld false [] [].
Definition with_fury_and_image : toy_world :=
  ToyWorld true [] ["dti_tractogram.png"].

(** A library whose every event fails. *)
Definition failing_lib (ev : event) (w : unit) : answer * unit :=
  (inr "ImportError", tt).

(** The toy library, except that [c] raises [OSError]. *)
Definition toy_lib_failing_at (c : string) (ev : event) (w : toy_world)
  : answer * toy_world :=
  match callee_of ev with
  | Some c' => if String.eqb c c' then (inr "OSError", w) else toy_lib ev w
  | None => toy_lib ev w
  end.

(** ** Properties named in the statements below *)

(** The parameters that the source writes as literals. *)
Definition literal_parameters (ev : event) : Prop :=
  match ev with
  | Call c _ args kwargs =>
      (c = "get_fnames" ->
       args = [VStr "stanford_hardi"] \/ args = [VStr "stanford_labels"]) /\
      (c = "peaks_from_model" ->
       kwarg "relative_peak_threshold" kwargs = Some (VFloat 8 (-1)) /\
       kwarg "min_separation_angle" kwargs = Some (VInt 45)) /\
      (c = "ThresholdStoppingCriterion" ->
       exists fa, args = [fa; VFloat 2 (-1)]) /\
      (c = "LocalTracking" ->
       kwarg "step_size" kwargs = Some (VFloat 5 (-1)))
  | _ => True
  end.

(** The values that an event hands to the library: the function and the
    arguments of a call, the object of an attribute read, the operands of
    an operator. *)
Definition values_of (ev : event) : list pyval :=
  match ev with
  | ImportFrom _ _ | Shell _ => []
  | GetAttr obj _ => [obj]
  | Call _ f args kwargs => f :: args ++ map snd kwargs
  | BinOp _ a b => [a; b]
  end.

(** The literals of the source. *)
Definition source_literals : list pyval :=
  [VStr "stanford_hardi"; VBool true; VRange 0 9; VInt 1; VInt 5;
   VStr "stanford_labels"; VInt 2; VFloat 8 (-1); VInt 45; VNone;
   VStr "dti_direction_field.png"; VTuple [VInt 900; VInt 900];
   VTuple [VInt 800; VInt 800]; VList [VInt 3; VInt 3; VInt 3];
   VFloat 2 (-1); VFloat 5 (-1); VStr "dti_tractogram.png";
   VStr "dti_CC_tractography_deterministic.trk"].

(** The items of a value, none if it cannot be unpacked. *)
Definition items_of (v : pyval) : list pyval :=
  match sequence_items v with
  | Some vs => vs
  | None => []
  end.

(** What the notebook holds of the library after a trace: every answer,
    and the items of the answers that can be unpacked. *)
Fixpoint learn (known : list pyval) (t : trace) : list pyval :=
  match t with
  | [] => known
  | (_, inl v) :: t' =>
      learn (v :: items_of v ++ known) t'
  | (_, inr _) :: t' => learn known t'
  end.

(** A value that the notebook passes on as it is: a literal of the
    source or a value of the library. *)
Definition plain (known : list pyval) (v : pyval) : Prop :=
  In v source_literals \/ In v known.

(** A value that the notebook may have computed: the plain values, and
    what [==] and [|] make of such values on arrays. *)
Inductive derived (known : list pyval) : pyval -> Prop :=
| derived_literal v : In v source_literals -> derived known v
| derived_known v : In v known -> derived known v
| derived_eq a n :
    derived known (VIntArray a) ->
    derived known (VInt n) ->
    derived known (VBoolArray (array_eq_scalar a n))
| derived_or a b :
    derived known (VBoolArray a) ->
    derived known (VBoolArray b) ->
    derived known (VBoolArray (array_or a b)).

(** [provenance P t]: every value that an event of [t] hands to the
    library is [P] of what the library had answered before. *)
Definition provenance (P : list pyval -> pyval -> Prop) (t : trace) : Prop :=
  forall pre ev r post,
    t = (pre ++ (ev, r) :: post)%list ->
    Forall (P (learn [] pre)) (values_of ev).

(** [derives known p]: every value that [p] hands to the library is
    derived from [known] and from the answers before it. *)
Fixpoint derives {A : Type} (known : list pyval) (p : prog A) : Prop :=
  match p with
  | Ret _ | Raise _ => True
  | Do ev k =>
      Forall (derived known) (values_of ev) /\
      forall v, derives (v :: items_of v ++ known) (k v)
  end.

(** "The notebook contributes no data transformation": a finished run
    hands to the library only literals of the source and values of the
    library. *)
Definition no_own_transformation : Prop :=
  forall (World : Type) (lib : event -> World -> answer -> World -> Prop)
         w t a w',
    exec lib notebook w t (Done a) w' ->
    provenance plain t.

(** "The notebook starts no process": no event of any run does. *)
Definition no_process_started : Prop :=
  forall (World : Type) (lib : event -> World -> answer -> World -> Prop)
         w t o w',
    exec lib notebook w t o w' ->
    Forall (fun en => starts_process (fst en) = false) t.

(** The reads of attribute [a] that returned: object and result. *)
Fixpoint attribute_reads (a : string) (t : trace) : list (pyval * pyval) :=
  match t with
  | [] => []
  | (GetAttr obj a', inl v) :: t' =>
      if String.eqb a a' then (obj, v) :: attribute_reads a t'
      else attribute_reads a t'
  | _ :: t' => attribute_reads a t'
  end.

(** ** Cells run on their own *)

(** The cells that read a name before they bind or import anything that
    could stop them, each with that name: all code cells from the masking
    to the saving except the direction-field figure (cell 14). *)
Definition cell_requirements : list (nb unit * string) :=
  [(cell_06, "data"); (cell_08, "get_fnames"); (cell_10, "gtab");
   (cell_12, "dti_model"); (cell_17, "labels"); (cell_20, "dti_model");
   (cell_22, "fa"); (cell_25, "dti_peaks");
   (cell_27, "streamlines_generator"); (cell_29, "has_fury");
   (cell_31, "streamlines")].

(** The calls whose result a tuple assignment unpacks, with the number of
    names on the left. *)
Definition unpacked_calls : list (string * nat) :=
  [("get_fnames", 3%nat); ("load_nifti", 3%nat);
   ("read_bvals_bvecs", 2%nat); ("median_otsu", 2%nat)].

(** The toy library, except that [load_nifti] returns the data and the
    affine only, as it does without [return_img]. *)
Definition toy_lib_two_values (ev : event) (w : toy_world)
  : answer * toy_world :=
  match callee_of ev with
  | Some c =>
      if String.eqb c "load_nifti"
      then (inl (VTuple [VObj 1; VObj 2]), w)
      else toy_lib ev w
  | None => toy_lib ev w
  end.

(** * Proofs *)

(** ** The semantics *)

Section Runs.
Context {World : Type}.
Variable lib : event -> World -> answer -> World -> Prop.

Lemma wp_sound {A : Type} (p : prog A) w t o w' :
  exec lib p w t o w' -> forall Q, wp p Q -> Q t o.
Proof.
  induction 1 as [a w|e w|ev k w v w1 t o w2 Hl He IH|ev k w e w1 Hl];
    intros Q HQ; cbn in HQ; auto.
  - destruct HQ as [_ HQ]. apply (IH _ (HQ v)).
  - destruct HQ as [HQ _]. apply HQ.
Qed.

Lemma completes_sound {A : Type} (p : prog A) w t a w' :
  exec lib p w t (Done a) w' -> forall Q, completes p Q -> Q t a.
Proof.
  intros H. remember (Done a) as o eqn:Ho. revert a Ho.
  induction H as [a0 w|e w|ev k w v w1 t o w2 Hl He IH|ev k w e w1 Hl];
    intros a Ho Q HQ; try discriminate.
  - injection Ho as ->. exact HQ.
  - cbn in HQ. apply (IH a Ho _ (HQ v)).
Qed.

Lemma always_sound {A : Type} (P : event -> Prop) (p : prog A) w t o w' :
  exec lib p w t o w' -> always P p -> Forall (fun en => P (fst en)) t.
Proof.
  induction 1 as [a w|e w|ev k w v w1 t o w2 Hl He IH|ev k w e w1 Hl];
    intros HP; cbn in HP.
  - constructor.
  - constructor.
  - destruct HP as [Hev Hk]. constructor; [exact Hev | apply IH, Hk].
  - destruct HP as [Hev _]. constructor; [exact Hev | constructor].
Qed.

(** Every answer in a trace is one the library gave. *)
Lemma exec_answered {A : Type} (p : prog A) w t o w' :
  exec lib p w t o w' ->
  Forall (fun en => exists w1 w2, lib (fst en) w1 (snd en) w2) t.
Proof.
  induction 1 as [a w|e w|ev k w v w1 t o w2 Hl He IH|ev k w e w1 Hl];
    repeat constructor; eauto.
Qed.

(** An exception of the library ends the run where it is raised. *)
Lemma exec_failure_is_last {A : Type} (p : prog A) w t o w' :
  exec lib p w t o w' ->
  forall i ev e, t !! i = Some (ev, inr e) ->
    o = Failed ev e /\ S i = length t.
Proof.
  induction 1 as [a w|e w|ev k w v w1 t o w2 Hl He IH|ev k w e w1 Hl];
    intros i ev' e' Hi.
  - discriminate.
  - discriminate.
  - destruct i as [|i]; [discriminate|].
    cbn in Hi. destruct (IH _ _ _ Hi) as [-> Hlen]. split; [reflexivity|].
    cbn. congruence.
  - destruct i as [|i]; [|destruct i; discriminate].
    injection Hi as <- <-. split; reflexivity.
Qed.

End Runs.

(** The run of a library given as a function is an execution. *)
Lemma run_exec {World A : Type} (libf : event -> World -> answer * World)
    (p : prog A) :
  forall w t o w', run libf p w = (t, o, w') -> exec (graph libf) p w t o w'.
Proof.
  induction p as [a|e|ev k IH]; intros w t o w' H; cbn in H.
  - injection H as <- <- <-. constructor.
  - injection H as <- <- <-. constructor.
  - destruct (libf ev w) as [[v|e] w1] eqn:Hl.
    + destruct (run libf (k v) w1) as [[t0 o0] w2] eqn:Hr.
      injection H as <- <- <-.
      apply exec_ok with (w1 := w1); [exact Hl | apply IH, Hr].
    + injection H as <- <- <-. apply exec_err. exact Hl.
Qed.

(** ** Symbolic execution of the notebook *)

Lemma same_shape_eq_scalar a x y :
  same_shape (array_eq_scalar a x) (array_eq_scalar a y) = true.
Proof. unfold same_shape. apply bool_decide_eq_true_2. reflexivity. Qed.

Lemma truthy_error v e : truthy v = inl e -> exists m, e = ValueError m.
Proof.
  destruct v as [| | | | | | | |a|a|]; cbn; try discriminate;
    destruct (items a) as [|? [|? ?]]; try discriminate;
    intros [= <-]; eauto.
Qed.

Ltac nb_head p :=
  eval lazy head beta iota zeta delta
    -[sequence_items truthy int_array_of bool_array_of same_shape] in p.

Ltac nb_case p :=
  match p with
  | context [bool_array_of (VBoolArray ?a)] =>
      change (bool_array_of (VBoolArray a)) with (Some a)
  | context [same_shape (array_eq_scalar ?a ?x) (array_eq_scalar ?a ?y)] =>
      rewrite (same_shape_eq_scalar a x y)
  | context [sequence_items ?v] => is_var v;
      first [ match goal with H : sequence_items v = _ |- _ => rewrite H end
            | destruct (sequence_items v) as [[|? [|? [|? [|? ?]]]]|] eqn:? ]
  | context [truthy ?v] => is_var v;
      first [ match goal with H : truthy v = _ |- _ => rewrite H end
            | destruct (truthy v) as [?|[|]] eqn:? ]
  | context [int_array_of ?v] => is_var v;
      first [ match goal with H : int_array_of v = _ |- _ => rewrite H end
            | destruct (int_array_of v) eqn:? ]
  | context [bool_array_of ?v] => is_var v;
      first [ match goal with H : bool_array_of v = _ |- _ => rewrite H end
            | destruct (bool_array_of v) eqn:? ]
  | context [same_shape ?a ?b] =>
      is_var a; is_var b; destruct (same_shape a b) eqn:?
  end.

(** The postcondition is kept under a name while the program is run, and
    opened at the end of each path. *)
Ltac fold_post :=
  lazymatch goal with
  | |- completes _ ?Q => let post := fresh "post" in set (post := Q)
  | |- wp _ ?Q => let post := fresh "post" in set (post := Q)
  end.

Ltac open_post :=
  repeat match goal with
         | post := _ |- _ => subst post
         end;
  cbv beta.

(** One step of a finished run. *)
Ltac completes_step :=
  lazymatch goal with
  | |- completes ?p ?Q =>
      let p' := nb_head p in
      lazymatch p' with
      | Ret ?a => change (Q [] a); open_post
      | Raise _ => exact I
      | Do ?ev ?k =>
          change (forall v, completes (k v)
                              (fun t a => Q ((ev, inl v) :: t) a));
          intro
      | _ => change (completes p' Q); nb_case p'
      end
  end.

(** One step of any run; leaves the outcomes to the caller. *)
Ltac wp_step leaf :=
  lazymatch goal with
  | |- wp ?p ?Q =>
      let p' := nb_head p in
      lazymatch p' with
      | Ret ?a => change (Q [] (Done a)); open_post; leaf
      | Raise ?e => change (Q [] (Raised e)); open_post; leaf
      | Do ?ev ?k =>
          change ((forall e, Q [(ev, inr e)] (Failed ev e)) /\
                  (forall v, wp (k v) (fun t o => Q ((ev, inl v) :: t) o)));
          split; [intro; open_post; leaf | intro]
      | _ => change (wp p' Q); nb_case p'
      end
  end.

(** One step of the events of any run. *)
Ltac always_step side :=
  lazymatch goal with
  | |- always ?P ?p =>
      let p' := nb_head p in
      lazymatch p' with
      | Ret _ => exact I
      | Raise _ => exact I
      | Do ?ev ?k =>
          change (P ev /\ forall v, always P (k v));
          split; [cbv beta; side | intro]
      | _ => change (always P p'); nb_case p'
      end
  end.

(** ** Runs of the toy library *)

Lemma run_is_exec {World A : Type}
    (libf : event -> World -> answer * World) (p : prog A) (w : World) :
  exec (graph libf) p w
    (run libf p w).1.1 (run libf p w).1.2 (run libf p w).2.
Proof. apply run_exec. by destruct (run libf p w) as [[? ?] ?]. Qed.

Lemma toy_run (w : toy_world) :
  exec (graph toy_lib) notebook w
    (run toy_lib notebook w).1.1 (run toy_lib notebook w).1.2
    (run toy_lib notebook w).2.
Proof. apply run_exec. by destruct (run toy_lib notebook w) as [[? ?] ?]. Qed.

Lemma toy_run_done (w : toy_world) t a w' :
  run toy_lib notebook w = (t, Done a, w') ->
  exec (graph toy_lib) notebook w t (Done a) w'.
Proof. apply run_exec. Qed.

(** ** C2: the order of the steps *)

Ltac forget_truthy_errors :=
  repeat match goal with
         | H : truthy _ = inl _ |- _ =>
             apply truthy_error in H; destruct H as [? ->]
         end.

Ltac order_leaf :=
  forget_truthy_errors;
  split; [intros ? ?; discriminate |
  split; [eexists; vm_compute; reflexivity |
          intros ? ?; first [discriminate | vm_compute; reflexivity]]].

Lemma notebook_order :
  wp notebook (fun t o =>
    (forall x, o <> Raised (NameError x)) /\
    (exists rest : list string,
        (calls (tractography t) ++ rest)%list = pipeline_order) /\
    (forall a, o = Done a -> calls (tractography t) = pipeline_order)).
Proof. unfold notebook. fold_post. repeat wp_step order_leaf. Qed.

(** C2.  In every run, whatever the library answers, the library calls
    outside the visualisation blocks are made in the order of
    [pipeline_order]: the sample dataset is loaded ([get_fnames],
    [load_nifti], [read_bvals_bvecs], [gradient_table]), masked
    ([median_otsu]), the labels are loaded, the tensor model is built and
    the peaks extracted ([TensorModel], [peaks_from_model]), the seeds are
    defined ([utils.seeds_from_mask]), then the stopping criterion
    ([dti_model.fit], [ThresholdStoppingCriterion]), the tracking is
    called ([LocalTracking], [Streamlines]) and the streamlines are saved
    ([StatefulTractogram], [save_trk]).  A run that stops early has made a
    prefix of these calls, a run that finishes has made all of them, and
    no statement reads a name before it is bound: no run ends in a
    [NameError]. *)
Theorem steps_run_in_pipeline_order {World : Type}
    (lib : event -> World -> answer -> World -> Prop) w t o w' :
  exec lib notebook w t o w' ->
  (forall x, o <> Raised (NameError x)) /\
  (exists rest : list string,
      (calls (tractography t) ++ rest)%list = pipeline_order) /\
  (forall a, o = Done a -> calls (tractography t) = pipeline_order).
Proof. intros H. exact (wp_sound lib notebook w t o w' H _ notebook_order). Qed.

Lemma steps_run_in_pipeline_order_witness :
  calls (tractography (run toy_lib notebook with_fury).1.1) = pipeline_order.
Proof.
  refine (proj2 (proj2 (steps_run_in_pipeline_order (graph toy_lib)
                          with_fury _ _ _ (toy_run with_fury))) _ _).
  vm_compute. reflexivity.
Defined.

(** ** C3: the parameters are literals *)

Ltac literal_side :=
  idtac;
  lazymatch goal with
  | |- literal_parameters ?ev =>
      let ev' := eval cbn in ev in
      change (literal_parameters ev');
      first [ exact I
            | cbn; repeat first [split | intro];
              try match goal with
                  | H : @eq string _ _ |- _ => discriminate H
                  end;
              eauto ]
  end.

Lemma notebook_literals : always literal_parameters notebook.
Proof. unfold notebook. repeat always_step literal_side. Qed.

Lemma notebook_parameter_calls :
  completes notebook (fun t _ =>
    exists hardi labels model data sphere wm peaks fa crit seeds aff gen,
      returned "get_fnames" t
      = [([VStr "stanford_hardi"], [], hardi);
         ([VStr "stanford_labels"], [], labels)] /\
      returned "peaks_from_model" t
      = [([model; data; sphere],
          [("relative_peak_threshold", VFloat 8 (-1));
           ("min_separation_angle", VInt 45); ("mask", wm)], peaks)] /\
      returned "ThresholdStoppingCriterion" t
      = [([fa; VFloat 2 (-1)], [], crit)] /\
      returned "LocalTracking" t
      = [([peaks; crit; seeds],
          [("affine", aff); ("step_size", VFloat 5 (-1))], gen)]).
Proof.
  unfold notebook. fold_post. repeat completes_step.
  all: do 12 eexists; repeat split; vm_compute; reflexivity.
Qed.

(** C3.  Whatever the library answers, every call of every run passes
    the parameters written in the source: [get_fnames] gets
    ['stanford_hardi'] (the dataset) or ['stanford_labels'] (its label
    file), [peaks_from_model] gets [relative_peak_threshold=.8] and
    [min_separation_angle=45], [ThresholdStoppingCriterion] gets [.2] next
    to the FA map, [LocalTracking] gets [step_size=.5]; a finished run has
    made each of these calls exactly once ([get_fnames] twice, first for
    'stanford_hardi'). *)
Theorem parameters_are_fixed_literals {World : Type}
    (lib : event -> World -> answer -> World -> Prop) w t o w' :
  exec lib notebook w t o w' ->
  Forall (fun en => literal_parameters (fst en)) t /\
  (forall a, o = Done a ->
     exists hardi labels model data sphere wm peaks fa crit seeds aff gen,
       returned "get_fnames" t
       = [([VStr "stanford_hardi"], [], hardi);
          ([VStr "stanford_labels"], [], labels)] /\
       returned "peaks_from_model" t
       = [([model; data; sphere],
           [("relative_peak_threshold", VFloat 8 (-1));
            ("min_separation_angle", VInt 45); ("mask", wm)], peaks)] /\
       returned "ThresholdStoppingCriterion" t
       = [([fa; VFloat 2 (-1)], [], crit)] /\
       returned "LocalTracking" t
       = [([peaks; crit; seeds],
           [("affine", aff); ("step_size", VFloat 5 (-1))], gen)]).
Proof.
  intros H. split.
  - exact (always_sound lib _ notebook w t o w' H notebook_literals).
  - intros a ->.
    exact (completes_sound lib notebook w t a w' H _ notebook_parameter_calls).
Qed.

Lemma parameters_are_fixed_literals_witness :
  Forall (fun en => literal_parameters (fst en))
    (run toy_lib notebook with_fury).1.1.
Proof.
  exact (proj1 (parameters_are_fixed_literals (graph toy_lib) with_fury
                  _ _ _ (toy_run with_fury))).
Defined.

(** ** C4: what the notebook adds to the library *)

Lemma derives_sound {World A : Type}
    (lib : event -> World -> answer -> World -> Prop) (p : prog A)
    w t o w' :
  exec lib p w t o w' ->
  forall known, derives known p ->
  forall pre ev r post,
    t = (pre ++ (ev, r) :: post)%list ->
    Forall (derived (learn known pre)) (values_of ev).
Proof.
  induction 1 as [a w|e w|ev0 k w v w1 t o w2 Hl He IH|ev0 k w e w1 Hl];
    intros known Hd pre ev r post Ht.
  - by destruct pre.
  - by destruct pre.
  - cbn in Hd. destruct Hd as [Hev Hk].
    destruct pre as [|x pre]; cbn in Ht.
    + injection Ht as <- _ _. exact Hev.
    + injection Ht as <- Ht. exact (IH _ (Hk v) _ _ _ _ Ht).
  - cbn in Hd. destruct Hd as [Hev _].
    destruct pre as [|x pre]; cbn in Ht.
    + injection Ht as <- _ _. exact Hev.
    + injection Ht as _ Ht. by destruct pre.
Qed.

Lemma int_array_of_inv v a : int_array_of v = Some a -> v = VIntArray a.
Proof. destruct v; cbn; congruence. Qed.

Lemma bool_array_of_inv v a : bool_array_of v = Some a -> v = VBoolArray a.
Proof. destruct v; cbn; congruence. Qed.

(** Finding a value in what is known. *)
Ltac in_search :=
  lazymatch goal with
  | |- In _ (_ :: _) => first [apply in_eq | apply in_cons; in_search]
  | |- In _ (items_of ?v ++ _) =>
      apply in_or_app;
      first [ left; unfold items_of;
              lazymatch goal with
              | H : sequence_items v = Some _ |- _ => rewrite H
              end;
              in_search
            | right; in_search ]
  end.

Ltac derive :=
  lazymatch goal with
  | |- derived _ (VBoolArray (array_or _ _)) => apply derived_or; derive
  | |- derived _ (VBoolArray (array_eq_scalar _ _)) =>
      apply derived_eq; derive
  | H : int_array_of ?v = Some ?a |- derived _ (VIntArray ?a) =>
      rewrite <- (int_array_of_inv v a H); derive
  | H : bool_array_of ?v = Some ?a |- derived _ (VBoolArray ?a) =>
      rewrite <- (bool_array_of_inv v a H); derive
  | |- derived _ _ =>
      first [ apply derived_known; in_search
            | apply derived_literal; unfold source_literals; in_search ]
  end.

Ltac derive_side :=
  idtac;
  cbn [values_of app map snd];
  repeat (apply List.Forall_cons; [derive|]);
  apply List.Forall_nil.

Ltac derives_step :=
  lazymatch goal with
  | |- derives ?K ?p =>
      let p' := nb_head p in
      lazymatch p' with
      | Ret _ => exact I
      | Raise _ => exact I
      | Do ?ev ?k =>
          change (Forall (derived K) (values_of ev) /\
                  forall v,
                    derives (v :: items_of v ++ K) (k v));
          split; [derive_side | intro]
      | _ => change (derives K p'); nb_case p'
      end
  end.

Lemma notebook_derives : derives [] notebook.
Proof. unfold notebook. repeat derives_step. Qed.

(** C4 as stated fails on the data: in the run of the toy library with
    fury, the mask handed to [peaks_from_model] is neither a literal of
    the source nor a value of the library; the notebook computed it from
    the label volume. *)
Lemma no_own_transformation_counterexample : ~ no_own_transformation.
Proof.
  intros H.
  pose proof (toy_run_done with_fury _ _ _ ltac:(vm_compute; reflexivity))
    as Hrun.
  specialize (H _ _ _ _ _ _ Hrun).
  match type of Hrun with
  | exec _ _ _ ?t _ _ =>
      specialize (H (take 17 t) _ _ (drop 18 t)
                    ltac:(vm_compute; reflexivity))
  end.
  rewrite List.Forall_forall in H.
  specialize (H (VBoolArray (array_or (array_eq_scalar toy_labels 1)
                                      (array_eq_scalar toy_labels 2)))
                ltac:(vm_compute; tauto)).
  destruct H as [H|H]; vm_compute in H;
    repeat (destruct H as [H|H]; [discriminate H|]); exact H.
Qed.

Lemma notebook_calls :
  completes notebook (fun t _ =>
    exists hf b,
      imported "dipy.viz" "has_fury" t = Some hf /\
      truthy hf = inr b /\
      calls t = expected_calls b).
Proof.
  unfold notebook. fold_post. repeat completes_step.
  all: eexists _, _; split; [vm_compute; reflexivity|];
       split; [eassumption | vm_compute; reflexivity].
Qed.

(** C4, as the code has it.  What the notebook adds to the library calls
    is one test and one computation.  The test is [if has_fury:]: in
    every finished run [has_fury] was imported from [dipy.viz] and has a
    truth value, and that truth value fixes the sequence of library calls
    of the run: the sixteen calls of [pipeline_order] with, when it is
    true, the five calls of the direction-field figure after
    [peaks_from_model] and the seven calls of the tractogram figure after
    [Streamlines].  The computation is that of the masks: in every run,
    every value handed to the library is a literal of the source, a value
    that the library returned before, or what [==] and [|] make of such
    values on arrays. *)
Theorem notebook_adds_one_test_and_the_masks {World : Type}
    (lib : event -> World -> answer -> World -> Prop) w t o w' :
  exec lib notebook w t o w' ->
  provenance derived t /\
  (forall a, o = Done a ->
     exists hf b,
       imported "dipy.viz" "has_fury" t = Some hf /\
       truthy hf = inr b /\
       calls t = expected_calls b).
Proof.
  intros H. split.
  - exact (derives_sound lib notebook w t o w' H [] notebook_derives).
  - intros a ->.
    exact (completes_sound lib notebook w t a w' H _ notebook_calls).
Qed.

Lemma notebook_adds_one_test_and_the_masks_witness :
  provenance derived (run toy_lib notebook with_fury).1.1 /\
  calls (run toy_lib notebook with_fury).1.1 = expected_calls true.
Proof.
  split.
  - exact (proj1 (notebook_adds_one_test_and_the_masks (graph toy_lib)
                    with_fury _ _ _ (toy_run with_fury))).
  - vm_compute. reflexivity.
Defined.

(** ** C5: no failure handling *)

Ltac save_leaf :=
  idtac;
  lazy beta iota;
  first [ exact I
        | intros H; first [discriminate H | vm_compute; reflexivity]
        | vm_compute; reflexivity ].

Lemma notebook_saves_last :
  wp notebook (fun t o =>
    match o with
    | Done _ => True
    | Raised _ => returned "save_trk" t = []
    | Failed ev _ => starts_process ev = false -> returned "save_trk" t = []
    end).
Proof. unfold notebook. fold_post. repeat wp_step save_leaf. Qed.

(** C5.  An exception raised by the library while it handles an event of
    the notebook is the outcome of the run, and the event is the last of
    the trace: no statement of the notebook catches it and nothing runs
    after it.  When a run is ended by an exception, of the library or of
    the notebook's own statements, before the shell commands of the last
    cells, [save_trk] has not returned: the output file is not
    written. *)
Theorem library_errors_abort_the_run {World : Type}
    (lib : event -> World -> answer -> World -> Prop) w t o w' :
  exec lib notebook w t o w' ->
  (forall i ev e, t !! i = Some (ev, inr e) ->
     o = Failed ev e /\ S i = length t) /\
  (forall ev e, o = Failed ev e -> starts_process ev = false ->
     returned "save_trk" t = []) /\
  (forall e, o = Raised e -> returned "save_trk" t = []).
Proof.
  intros H. split; [exact (exec_failure_is_last lib notebook w t o w' H)|].
  pose proof (wp_sound lib notebook w t o w' H _ notebook_saves_last) as Hs.
  split.
  - intros ev e ->. exact Hs.
  - intros e ->. exact Hs.
Qed.

Lemma library_errors_abort_the_run_witness :
  returned "save_trk"
    (run (toy_lib_failing_at "LocalTracking") notebook with_fury).1.1 = [].
Proof.
  refine (proj1 (proj2 (library_errors_abort_the_run
                          (graph (toy_lib_failing_at "LocalTracking"))
                          with_fury _ _ _ (run_is_exec _ _ _))) _ _ _ _).
  - vm_compute. reflexivity.
  - vm_compute. reflexivity.
Defined.

(** ** C6: the output file *)

Lemma notebook_output :
  completes notebook (fun t _ =>
    exists nargs nkw nifti dwi aff img space rasmm largs lkw gen sl sft r,
      returned "load_nifti" t = [(nargs, nkw, nifti)] /\
      sequence_items nifti = Some [dwi; aff; img] /\
      imported "dipy.io.stateful_tractogram" "Space" t = Some space /\
      attribute_reads "RASMM" t = [(space, rasmm)] /\
      returned "LocalTracking" t = [(largs, lkw, gen)] /\
      returned "Streamlines" t = [([gen], [], sl)] /\
      returned "StatefulTractogram" t = [([sl; img; rasmm], [], sft)] /\
      returned "save_trk" t
      = [([sft; VStr "dti_CC_tractography_deterministic.trk"; sl], [], r)]).
Proof.
  unfold notebook. fold_post. repeat completes_step.
  all: do 14 eexists; split; [vm_compute; reflexivity|];
       split; [eassumption|]; repeat split; vm_compute; reflexivity.
Qed.

(** C6.  A finished run has called [save_trk] exactly once, with the file
    name "dti_CC_tractography_deterministic.trk" and the one
    [StatefulTractogram] of the run, which was built from the streamlines
    that [Streamlines] made of the [LocalTracking] generator, the image
    returned by [load_nifti] and [Space.RASMM]. *)
Theorem one_tractogram_is_saved {World : Type}
    (lib : event -> World -> answer -> World -> Prop) w t a w' :
  exec lib notebook w t (Done a) w' ->
  exists nargs nkw nifti dwi aff img space rasmm largs lkw gen sl sft r,
    returned "load_nifti" t = [(nargs, nkw, nifti)] /\
    sequence_items nifti = Some [dwi; aff; img] /\
    imported "dipy.io.stateful_tractogram" "Space" t = Some space /\
    attribute_reads "RASMM" t = [(space, rasmm)] /\
    returned "LocalTracking" t = [(largs, lkw, gen)] /\
    returned "Streamlines" t = [([gen], [], sl)] /\
    returned "StatefulTractogram" t = [([sl; img; rasmm], [], sft)] /\
    returned "save_trk" t
    = [([sft; VStr "dti_CC_tractography_deterministic.trk"; sl], [], r)].
Proof.
  intros H. exact (completes_sound lib notebook w t a w' H _ notebook_output).
Qed.

Lemma one_tractogram_is_saved_witness :
  exists sft sl r,
    returned "save_trk" (run toy_lib notebook with_fury).1.1
    = [([sft; VStr "dti_CC_tractography_deterministic.trk"; sl], [], r)] /\
    trk_files (run toy_lib notebook with_fury).2
    = ["dti_CC_tractography_deterministic.trk"].
Proof.
  destruct (one_tractogram_is_saved (graph toy_lib) with_fury
              (run toy_lib notebook with_fury).1.1 _
              (run toy_lib notebook with_fury).2
              ltac:(apply toy_run_done; vm_compute; reflexivity))
    as (? & ? & ? & ? & ? & ? & ? & ? & ? & ? & ? & sl & sft & r & H).
  exists sft, sl, r. split; [apply H | vm_compute; reflexivity].
Defined.

(** ** C7: processes *)

(** C7 as stated fails: the run of the toy library with fury issues the
    shell command [dir], which starts a process. *)
Lemma no_process_started_counterexample : ~ no_process_started.
Proof.
  intros H.
  specialize (H _ _ _ _ _ _ (toy_run with_fury)).
  rewrite List.Forall_forall in H.
  specialize (H (Shell "dir", inl VNone)).
  assert (In (Shell "dir", inl VNone) (run toy_lib notebook with_fury).1.1)
    as Hin by (vm_compute; tauto).
  apply H in Hin. discriminate Hin.
Qed.

Ltac process_side :=
  idtac;
  cbn; intros H;
  first [ discriminate H
        | eexists; split; [reflexivity | cbn; tauto] ].

Lemma notebook_processes :
  always (fun ev => starts_process ev = true ->
                    exists cmd, ev = Shell cmd /\ In cmd trailing_commands)
    notebook.
Proof. unfold notebook. repeat always_step process_side. Qed.

Ltac split_before_shell :=
  lazymatch goal with
  | |- exists pre post, ?T = _ /\ _ =>
      let n := eval vm_compute in (length T - 6) in
      exists (take n T), (drop n T)
  end.

Lemma notebook_shell_last :
  completes notebook (fun t _ =>
    exists pre post,
      t = (pre ++ post)%list /\
      forallb (fun en => negb (starts_process (fst en))) pre = true /\
      (exists f args kw r,
          last pre = Some (Call "save_trk" f args kw, inl r)) /\
      map fst post = map Shell trailing_commands).
Proof.
  unfold notebook. fold_post. repeat completes_step.
  all: split_before_shell;
       split; [symmetry; apply take_drop|];
       split; [vm_compute; reflexivity|];
       split; [do 4 eexists; vm_compute; reflexivity
              | vm_compute; reflexivity].
Qed.

(** C7, as the code has it.  The events of a run are issued one after the
    other, each after the answer to the one before.  The only events that
    start a process are the shell commands of the last cells ([!dir] and
    five [!dipy_horizon ...]); in a finished run they are the last six
    events, issued right after [save_trk] has returned, and no event
    before them starts a process. *)
Theorem only_trailing_shell_commands_start_processes {World : Type}
    (lib : event -> World -> answer -> World -> Prop) w t o w' :
  exec lib notebook w t o w' ->
  Forall (fun en => starts_process (fst en) = true ->
                    exists cmd, fst en = Shell cmd /\
                                In cmd trailing_commands) t /\
  (forall a, o = Done a ->
     exists pre post,
       t = (pre ++ post)%list /\
       forallb (fun en => negb (starts_process (fst en))) pre = true /\
       (exists f args kw r,
           last pre = Some (Call "save_trk" f args kw, inl r)) /\
       map fst post = map Shell trailing_commands).
Proof.
  intros H. split.
  - exact (always_sound lib _ notebook w t o w' H notebook_processes).
  - intros a ->.
    exact (completes_sound lib notebook w t a w' H _ notebook_shell_last).
Qed.

Lemma only_trailing_shell_commands_start_processes_witness :
  shell_commands (run toy_lib notebook with_fury).1.1 = trailing_commands /\
  Forall (fun en => starts_process (fst en) = true ->
                    exists cmd, fst en = Shell cmd /\
                                In cmd trailing_commands)
    (run toy_lib notebook with_fury).1.1.
Proof.
  split; [vm_compute; reflexivity|].
  exact (proj1 (only_trailing_shell_commands_start_processes (graph toy_lib)
                  with_fury _ _ _ (toy_run with_fury))).
Defined.

(** ** C8 and C9: the masks *)

Lemma seed_mask_spec (lab : ndarray Z) (i : nat) :
  items (array_eq_scalar lab 2) !! i = Some true <->
  items lab !! i = Some 2%Z.
Proof.
  cbn. rewrite list_lookup_fmap.
  destruct (items lab !! i) as [x|]; cbn; [|split; discriminate].
  split.
  - intros [= H]. apply Z.eqb_eq in H. by subst.
  - intros [= ->]. reflexivity.
Qed.

Lemma white_matter_spec (lab : ndarray Z) (i : nat) :
  items (array_or (array_eq_scalar lab 1) (array_eq_scalar lab 2)) !! i
  = Some true <->
  items lab !! i = Some 1%Z \/ items lab !! i = Some 2%Z.
Proof.
  cbn. rewrite lookup_zip_with, !list_lookup_fmap.
  destruct (items lab !! i) as [x|]; cbn;
    [|split; [discriminate | intros [?|?]; discriminate]].
  split.
  - intros [= H]. apply orb_true_iff in H as [H|H];
      apply Z.eqb_eq in H; subst; auto.
  - intros [[= ->]|[= ->]]; reflexivity.
Qed.

Ltac labels_leaf :=
  do 3 eexists; split; [vm_compute; reflexivity|];
  intros lab Hlab;
  repeat match goal with
         | H : int_array_of ?v = _ |- _ =>
             rewrite Hlab in H;
             first [discriminate H | injection H as <-]
         end.

Lemma notebook_seeds :
  completes notebook (fun t _ =>
    exists la lk lv,
      returned "load_nifti_data" t = [(la, lk, lv)] /\
      forall lab, int_array_of lv = Some lab ->
      exists f nargs nkw nifti dwi aff img s peaks crit lkw gen,
        returned "load_nifti" t = [(nargs, nkw, nifti)] /\
        sequence_items nifti = Some [dwi; aff; img] /\
        In (Call "utils.seeds_from_mask" f
              [VBoolArray (array_eq_scalar lab 2); aff]
              [("density", VList [VInt 3; VInt 3; VInt 3])], inl s) t /\
        returned "utils.seeds_from_mask" t
        = [([VBoolArray (array_eq_scalar lab 2); aff],
            [("density", VList [VInt 3; VInt 3; VInt 3])], s)] /\
        returned "LocalTracking" t = [([peaks; crit; s], lkw, gen)]).
Proof.
  unfold notebook. fold_post. repeat completes_step.
  all: labels_leaf.
  all: do 12 eexists; split; [vm_compute; reflexivity|];
       split; [eassumption|];
       split; [cbn; tauto|];
       split; vm_compute; reflexivity.
Qed.

Lemma notebook_peaks :
  completes notebook (fun t _ =>
    exists la lk lv,
      returned "load_nifti_data" t = [(la, lk, lv)] /\
      forall lab, int_array_of lv = Some lab ->
      exists f model data sphere peaks crit seeds lkw gen,
        In (Call "peaks_from_model" f [model; data; sphere]
              [("relative_peak_threshold", VFloat 8 (-1));
               ("min_separation_angle", VInt 45);
               ("mask", VBoolArray (array_or (array_eq_scalar lab 1)
                                             (array_eq_scalar lab 2)))],
            inl peaks) t /\
        returned "peaks_from_model" t
        = [([model; data; sphere],
            [("relative_peak_threshold", VFloat 8 (-1));
             ("min_separation_angle", VInt 45);
             ("mask", VBoolArray (array_or (array_eq_scalar lab 1)
                                           (array_eq_scalar lab 2)))],
            peaks)] /\
        returned "LocalTracking" t = [([peaks; crit; seeds], lkw, gen)]).
Proof.
  unfold notebook. fold_post. repeat completes_step.
  all: labels_leaf.
  all: do 9 eexists; split; [cbn; tauto|];
       split; vm_compute; reflexivity.
Qed.

Lemma int_array_of_Some v lab : v = VIntArray lab -> int_array_of v = Some lab.
Proof. by intros ->. Qed.

Section Seeds.
Context {World : Type}.
Variable lib : event -> World -> answer -> World -> Prop.

(** How many of the seeds of a seed array lie in voxel [i]. *)
Variable seeds_in_voxel : pyval -> nat -> Z.

(** What DIPY documents of [seeds_from_mask]: [density] seeds along each
    axis in every voxel of the mask, none elsewhere. *)
Hypothesis seeds_from_mask_spec :
  forall f m aff d0 d1 d2 w s w',
    lib (Call "utils.seeds_from_mask" f [VBoolArray m; aff]
           [("density", VList [VInt d0; VInt d1; VInt d2])]) w (inl s) w' ->
    forall i, seeds_in_voxel s i
              = if default false (items m !! i) then (d0 * d1 * d2)%Z
                else 0%Z.

(** C8.  In a finished run in which [load_nifti_data] returned the
    integer label volume [lab], [seeds_from_mask] was called once, with
    the mask [lab == 2] (true exactly at the voxels labelled 2), the
    affine of the diffusion image and [density=[3, 3, 3]]; so, by what
    the library documents of it, a voxel labelled 2 holds 3 * 3 * 3 = 27
    seeds and any other voxel holds none.  These seeds are the ones
    handed to [LocalTracking]. *)
Theorem seeds_only_in_label_2 w t a w' args kw lab :
  exec lib notebook w t (Done a) w' ->
  returned "load_nifti_data" t = [(args, kw, VIntArray lab)] ->
  exists nargs nkw nifti dwi aff img s,
    returned "load_nifti" t = [(nargs, nkw, nifti)] /\
    sequence_items nifti = Some [dwi; aff; img] /\
    returned "utils.seeds_from_mask" t
    = [([VBoolArray (array_eq_scalar lab 2); aff],
        [("density", VList [VInt 3; VInt 3; VInt 3])], s)] /\
    (forall i, items (array_eq_scalar lab 2) !! i = Some true <->
               items lab !! i = Some 2%Z) /\
    (forall i, seeds_in_voxel s i
               = if bool_decide (items lab !! i = Some 2%Z) then 27%Z
                 else 0%Z) /\
    (exists peaks crit lkw gen,
        returned "LocalTracking" t = [([peaks; crit; s], lkw, gen)]).
Proof.
  intros H Hlab.
  destruct (completes_sound lib notebook w t a w' H _ notebook_seeds)
    as (la & lk & lv & Hret & Hs).
  rewrite Hret in Hlab. injection Hlab as -> -> ->.
  destruct (Hs lab eq_refl)
    as (f & nargs & nkw & nifti & dwi & aff & img & s & peaks & crit
        & lkw & gen & Hn & Hseq & Hin & Hseeds & Htrack).
  exists nargs, nkw, nifti, dwi, aff, img, s.
  repeat split; try assumption; try apply seed_mask_spec.
  - intros i.
    pose proof (exec_answered lib notebook w t _ w' H) as Hans.
    rewrite List.Forall_forall in Hans.
    destruct (Hans _ Hin) as (w1 & w2 & Hl). cbn in Hl.
    rewrite (seeds_from_mask_spec _ _ _ _ _ _ _ _ _ Hl i).
    pose proof (seed_mask_spec lab i) as Hm.
    destruct (items (array_eq_scalar lab 2) !! i) as [[|]|] eqn:E; cbn.
    + rewrite bool_decide_eq_true_2; [reflexivity | by apply Hm].
    + rewrite bool_decide_eq_false_2; [reflexivity|].
      intros H2. apply Hm in H2. discriminate.
    + rewrite bool_decide_eq_false_2; [reflexivity|].
      intros H2. apply Hm in H2. discriminate.
  - eauto.
Qed.
End Seeds.

Section Peaks.
Context {World : Type}.
Variable lib : event -> World -> answer -> World -> Prop.

(** Whether a peaks object holds a direction for voxel [i]. *)
Variable peak_at : pyval -> nat -> Prop.

(** What DIPY documents of the [mask] of [peaks_from_model]: directions
    are computed inside the mask only. *)
Hypothesis peaks_from_model_spec :
  forall f args kwargs m w r w',
    lib (Call "peaks_from_model" f args kwargs) w (inl r) w' ->
    kwarg "mask" kwargs = Some (VBoolArray m) ->
    forall i, peak_at r i -> items m !! i = Some true.

(** C9.  In a finished run in which [load_nifti_data] returned the
    integer label volume [lab], [peaks_from_model] was called once, with
    the mask [(lab == 1) | (lab == 2)]: an array of the shape of [lab],
    true exactly at the voxels labelled 1 or 2.  So, by what the library
    documents of it, the peaks handed to [LocalTracking] hold a
    direction only for voxels labelled 1 or 2. *)
Theorem peaks_only_in_white_matter w t a w' args kw lab :
  exec lib notebook w t (Done a) w' ->
  returned "load_nifti_data" t = [(args, kw, VIntArray lab)] ->
  let white_matter :=
    array_or (array_eq_scalar lab 1) (array_eq_scalar lab 2) in
  exists model data sphere peaks,
    returned "peaks_from_model" t
    = [([model; data; sphere],
        [("relative_peak_threshold", VFloat 8 (-1));
         ("min_separation_angle", VInt 45);
         ("mask", VBoolArray white_matter)], peaks)] /\
    shape white_matter = shape lab /\
    (forall i, items white_matter !! i = Some true <->
               items lab !! i = Some 1%Z \/ items lab !! i = Some 2%Z) /\
    (forall i, peak_at peaks i ->
               items lab !! i = Some 1%Z \/ items lab !! i = Some 2%Z) /\
    (exists crit seeds lkw gen,
        returned "LocalTracking" t = [([peaks; crit; seeds], lkw, gen)]).
Proof.
  intros H Hlab white_matter.
  destruct (completes_sound lib notebook w t a w' H _ notebook_peaks)
    as (la & lk & lv & Hret & Hs).
  rewrite Hret in Hlab. injection Hlab as -> -> ->.
  destruct (Hs lab eq_refl)
    as (f & model & data & sphere & peaks & crit & seeds & lkw & gen
        & Hin & Hpeaks & Htrack).
  exists model, data, sphere, peaks.
  repeat split; try assumption; try reflexivity;
    try (apply white_matter_spec; assumption).
  - intros i Hp. apply white_matter_spec.
    pose proof (exec_answered lib notebook w t _ w' H) as Hans.
    rewrite List.Forall_forall in Hans.
    destruct (Hans _ Hin) as (w1 & w2 & Hl). cbn in Hl.
    exact (peaks_from_model_spec _ _ _ _ _ _ _ Hl eq_refl i Hp).
  - eauto.
Qed.
End Peaks.

Lemma toy_seeds_spec f m aff d0 d1 d2 w s w' :
  graph toy_lib
    (Call "utils.seeds_from_mask" f [VBoolArray m; aff]
       [("density", VList [VInt d0; VInt d1; VInt d2])]) w (inl s) w' ->
  forall i, toy_seeds_in_voxel s i
            = if default false (items m !! i) then (d0 * d1 * d2)%Z else 0%Z.
Proof. intros [= <- _] i. reflexivity. Qed.

Lemma toy_peaks_spec f args kwargs m w r w' :
  graph toy_lib (Call "peaks_from_model" f args kwargs) w (inl r) w' ->
  kwarg "mask" kwargs = Some (VBoolArray m) ->
  forall i, toy_peak_at r i = true -> items m !! i = Some true.
Proof.
  intros [= <- _] Hm i. cbn. unfold toy_peaks. rewrite Hm. cbn.
  destruct (items m !! i) as [[|]|]; cbn; congruence.
Qed.

Lemma seeds_only_in_label_2_witness :
  exists s,
    toy_seeds_in_voxel s 0 = 0%Z /\ toy_seeds_in_voxel s 1 = 0%Z /\
    toy_seeds_in_voxel s 2 = 27%Z /\ toy_seeds_in_voxel s 3 = 27%Z.
Proof.
  destruct (seeds_only_in_label_2 (graph toy_lib) toy_seeds_in_voxel
              toy_seeds_spec with_fury
              (run toy_lib notebook with_fury).1.1 _
              (run toy_lib notebook with_fury).2
              [VStr "aparc-reduced.nii.gz"] [] toy_labels
              ltac:(apply toy_run_done; vm_compute; reflexivity)
              ltac:(vm_compute; reflexivity))
    as (? & ? & ? & ? & ? & ? & s & _ & _ & _ & _ & Hs & _).
  exists s. rewrite !Hs. repeat split.
Defined.

Lemma peaks_only_in_white_matter_witness :
  exists peaks,
    forall i, toy_peak_at peaks i = true ->
              items toy_labels !! i = Some 1%Z \/
              items toy_labels !! i = Some 2%Z.
Proof.
  destruct (peaks_only_in_white_matter (graph toy_lib)
              (fun r i => toy_peak_at r i = true)
              toy_peaks_spec with_fury
              (run toy_lib notebook with_fury).1.1 _
              (run toy_lib notebook with_fury).2
              [VStr "aparc-reduced.nii.gz"] [] toy_labels
              ltac:(apply toy_run_done; vm_compute; reflexivity)
              ltac:(vm_compute; reflexivity))
    as (? & ? & ? & peaks & _ & _ & _ & Hp & _).
  exists peaks. exact Hp.
Defined.

(** ** The visualisation does not reach the tractography *)

Section Noninterference.
Context {World V : Type}.
Variable lib : event -> World -> answer -> World -> Prop.

(** The part of the world that the tractography reads and writes. *)
Variable view : World -> V.

(** Visualisation events leave it alone. *)
Hypothesis visual_frame :
  forall ev w r w', visual ev = true -> lib ev w r w' -> view w' = view w.

(** The other events see nothing else of the world. *)
Hypothesis tractography_reads_view :
  forall ev w1 r1 w1' w2 r2 w2',
    visual ev = false -> view w1 = view w2 ->
    lib ev w1 r1 w1' -> lib ev w2 r2 w2' ->
    r1 = r2 /\ view w1' = view w2'.

Lemma sim_sound {A B : Type} (p : prog A) (q : prog B) :
  sim p q ->
  forall w1 t1 a w1' w2 t2 b w2',
    view w1 = view w2 ->
    exec lib p w1 t1 (Done a) w1' ->
    exec lib q w2 t2 (Done b) w2' ->
    tractography t1 = tractography t2 /\ view w1' = view w2'.
Proof.
  induction 1 as [a0 b0|e q|p e|ev k1 k2 Hv Hk IH|ev k q Hv Hk IH
                 |p ev k Hv Hk IH];
    intros w1 t1 a w1' w2 t2 b w2' Hw H1 H2.
  - inversion H1; inversion H2; subst. auto.
  - inversion H1.
  - inversion H2.
  - inversion H1 as [| |? ? ? v1 wa ta ? ? Hl1 He1|]; subst.
    inversion H2 as [| |? ? ? v2 wb tb ? ? Hl2 He2|]; subst.
    destruct (tractography_reads_view _ _ _ _ _ _ _ Hv Hw Hl1 Hl2)
      as [[= <-] Hw'].
    destruct (IH v1 _ _ _ _ _ _ _ _ Hw' He1 He2) as [Ht Hf].
    split; [|exact Hf].
    unfold tractography in *. cbn. rewrite Hv. cbn. by rewrite Ht.
  - inversion H1 as [| |? ? ? v1 wa ta ? ? Hl1 He1|]; subst.
    pose proof (visual_frame _ _ _ _ Hv Hl1) as Hw1.
    destruct (IH v1 wa ta a w1' w2 t2 b w2') as [Ht Hf];
      [congruence | assumption | assumption |].
    split; [|exact Hf].
    unfold tractography in *. cbn. rewrite Hv. cbn. exact Ht.
  - inversion H2 as [| |? ? ? v2 wb tb ? ? Hl2 He2|]; subst.
    pose proof (visual_frame _ _ _ _ Hv Hl2) as Hw2.
    destruct (IH v2 w1 t1 a w1' wb tb b w2') as [Ht Hf];
      [congruence | assumption | assumption |].
    split; [|exact Hf].
    unfold tractography in *. cbn. rewrite Hv. cbn. exact Ht.
Qed.
End Noninterference.

Ltac sim_visual_left ev k q :=
  change (sim (Do ev k) q); apply sim_left; [vm_compute; reflexivity | intro].

Ltac sim_right_turn p q :=
  let q' := nb_head q in
  lazymatch q' with
  | Raise _ => change (sim p q'); apply sim_raise_r
  | Ret _ =>
      lazymatch p with
      | Ret _ => change (sim p q'); apply sim_ret
      end
  | Do ?ev ?k =>
      change (sim p (Do ev k));
      first [ apply sim_right; [vm_compute; reflexivity | intro]
            | apply sim_both; [vm_compute; reflexivity | intro] ]
  | _ => change (sim p q'); nb_case q'
  end.

Ltac sim_step :=
  lazymatch goal with
  | |- sim ?p ?q =>
      let p' := nb_head p in
      lazymatch p' with
      | Raise _ => change (sim p' q); apply sim_raise_l
      | Ret _ => change (sim p' q); sim_right_turn p' q
      | Do ?ev ?k =>
          first [ sim_visual_left ev k q
                | change (sim (Do ev k) q); sim_right_turn (Do ev k) q ]
      | _ => change (sim p' q); nb_case p'
      end
  end.

Lemma notebook_sim : sim notebook notebook.
Proof. unfold notebook. repeat sim_step. Qed.

Lemma returned_tractography (c : string) (t : trace) :
  (forall f args kwargs, visual (Call c f args kwargs) = false) ->
  returned c (tractography t) = returned c t.
Proof.
  intros Hc. induction t as [|[ev ans] t IH]; [reflexivity|].
  unfold tractography in *. cbn.
  destruct (visual ev) eqn:Hv; cbn.
  - rewrite IH.
    destruct ev as [| |c' f args kwargs| |]; try by destruct ans.
    destruct ans; [|reflexivity].
    destruct (String.eqb c c') eqn:E; [|reflexivity].
    apply String.eqb_eq in E. subst c'. rewrite Hc in Hv. discriminate.
  - destruct ev as [| |c' f args kwargs| |]; destruct ans; cbn;
      try exact IH.
    destruct (String.eqb c c'); by rewrite IH.
Qed.

(** Take any library in which the visualisation events (the imports
    from [dipy.viz], [has_fury] among them, and the attribute reads and
    calls of the two [if has_fury:] blocks) leave alone the part of the
    world that the other events read and write.  Then two finished runs
    from worlds that agree on that part, whatever the visualisation
    answers in each, issue the same events outside the visualisation,
    with the same answers: [Streamlines] returns the same streamlines,
    [save_trk] is called with the same tractogram and the same file name,
    and the worlds agree on that part at the end.  No scene, actor or
    colour, and not [has_fury], reaches a call of the pipeline. *)
Theorem visualisation_does_not_reach_tractography {World V : Type}
    (lib : event -> World -> answer -> World -> Prop) (view : World -> V)
    (visual_frame :
       forall ev w r w', visual ev = true -> lib ev w r w' -> view w' = view w)
    (tractography_reads_view :
       forall ev w1 r1 w1' w2 r2 w2',
         visual ev = false -> view w1 = view w2 ->
         lib ev w1 r1 w1' -> lib ev w2 r2 w2' ->
         r1 = r2 /\ view w1' = view w2')
    w1 t1 a1 w1' w2 t2 a2 w2' :
  view w1 = view w2 ->
  exec lib notebook w1 t1 (Done a1) w1' ->
  exec lib notebook w2 t2 (Done a2) w2' ->
  tractography t1 = tractography t2 /\
  returned "Streamlines" t1 = returned "Streamlines" t2 /\
  returned "save_trk" t1 = returned "save_trk" t2 /\
  view w1' = view w2'.
Proof.
  intros Hw H1 H2.
  destruct (sim_sound lib view visual_frame tractography_reads_view
              notebook notebook notebook_sim _ _ _ _ _ _ _ _ Hw H1 H2)
    as [Ht Hv].
  split; [exact Ht|]. split; [|split; [|exact Hv]].
  - rewrite <- (returned_tractography "Streamlines" t1),
            <- (returned_tractography "Streamlines" t2), Ht; reflexivity.
  - rewrite <- (returned_tractography "save_trk" t1),
            <- (returned_tractography "save_trk" t2), Ht; reflexivity.
Qed.

Lemma toy_visual_frame ev w r w' :
  visual ev = true -> graph toy_lib ev w r w' -> trk_files w' = trk_files w.
Proof.
  intros Hv [= _ <-].
  destruct ev as [| |c f args kwargs| |]; try reflexivity.
  cbn [toy_effect].
  destruct (String.eqb c "save_trk") eqn:E.
  - apply String.eqb_eq in E. subst c. discriminate Hv.
  - destruct (String.eqb c "window.record"); [|reflexivity].
    by destruct (kwarg "out_path" kwargs) as [[]|].
Qed.

Lemma toy_tractography_reads_view ev w1 r1 w1' w2 r2 w2' :
  visual ev = false -> trk_files w1 = trk_files w2 ->
  graph toy_lib ev w1 r1 w1' -> graph toy_lib ev w2 r2 w2' ->
  r1 = r2 /\ trk_files w1' = trk_files w2'.
Proof.
  intros Hv Hw [= <- <-] [= <- <-].
  destruct ev as [m n| |c f args kwargs| |]; cbn; auto.
  - cbn in Hv. rewrite Hv. auto.
  - split; [reflexivity|].
    destruct (String.eqb c "save_trk").
    + destruct args as [|? [|[] ?]]; cbn; congruence.
    + destruct (String.eqb c "window.record"); [|exact Hw].
      by destruct (kwarg "out_path" kwargs) as [[]|].
Qed.

Lemma visualisation_does_not_reach_tractography_witness :
  tractography (run toy_lib notebook with_fury).1.1
  = tractography (run toy_lib notebook with_fury_and_image).1.1 /\
  png_files (run toy_lib notebook with_fury).2
  = ["dti_direction_field.png"; "dti_tractogram.png"] /\
  png_files (run toy_lib notebook with_fury_and_image).2
  = ["dti_tractogram.png"; "dti_direction_field.png"; "dti_tractogram.png"].
Proof.
  split; [|split; vm_compute; reflexivity].
  refine (proj1 (visualisation_does_not_reach_tractography (graph toy_lib)
                   trk_files toy_visual_frame toy_tractography_reads_view
                   with_fury (run toy_lib notebook with_fury).1.1 _
                   (run toy_lib notebook with_fury).2
                   with_fury_and_image
                   (run toy_lib notebook with_fury_and_image).1.1 _
                   (run toy_lib notebook with_fury_and_image).2 _ _ _)).
  - reflexivity.
  - apply toy_run_done. vm_compute. reflexivity.
  - apply toy_run_done. vm_compute. reflexivity.
Defined.

(** ** C10: a kernel without fury *)

Ltac no_window_leaf :=
  idtac;
  intros Hw; vm_compute in Hw;
  first [ discriminate Hw
        | clear Hw;
          split; [intros ? Hd; discriminate Hd|];
          split; [vm_compute; reflexivity|];
          split; [vm_compute; reflexivity|];
          eexists; vm_compute; reflexivity ].

Lemma notebook_without_window :
  wp notebook (fun t o =>
    imported "dipy.viz" "window" t = None ->
    (forall a, o <> Done a) /\
    returned "Streamlines" t = [] /\
    returned "save_trk" t = [] /\
    exists rest : list string,
      (calls t ++ rest)%list = take 9 pipeline_order).
Proof. unfold notebook. fold_post. repeat wp_step no_window_leaf. Qed.

(** C10 fails on the code.  The tests [if has_fury:] guard the calls of
    the figures, but [window] and [actor] are imported from [dipy.viz]
    before the first test, in the same statement as [has_fury].  In a run
    in which [window] could not be imported, as in a kernel without fury,
    the notebook stops in cell 14: the run does not finish, it has made
    at most the nine calls up to [peaks_from_model], [Streamlines] has
    not been called and nothing has been saved. *)
Theorem missing_fury_stops_the_run {World : Type}
    (lib : event -> World -> answer -> World -> Prop) w t o w' :
  exec lib notebook w t o w' ->
  imported "dipy.viz" "window" t = None ->
  (forall a, o <> Done a) /\
  returned "Streamlines" t = [] /\
  returned "save_trk" t = [] /\
  exists rest : list string,
    (calls t ++ rest)%list = take 9 pipeline_order.
Proof.
  intros H. exact (wp_sound lib notebook w t o w' H _ notebook_without_window).
Qed.

Lemma missing_fury_stops_the_run_witness :
  (run toy_lib notebook without_fury).1.2
  = Failed (ImportFrom "dipy.viz" "window") "ImportError" /\
  returned "Streamlines" (run toy_lib notebook without_fury).1.1 = [] /\
  trk_files (run toy_lib notebook without_fury).2 = [] /\
  trk_files (run toy_lib notebook with_fury).2
  = ["dti_CC_tractography_deterministic.trk"].
Proof.
  split; [vm_compute; reflexivity|].
  split; [|split; vm_compute; reflexivity].
  refine (proj1 (proj2 (missing_fury_stops_the_run (graph toy_lib)
                          without_fury _ _ _ (toy_run without_fury) _))).
  vm_compute. reflexivity.
Defined.


(** * Further properties of the cells *)

(** ** Cells run out of order *)

Ltac alone_leaf :=
  idtac;
  forget_truthy_errors;
  split; [intros ? ?; discriminate |
  split; [intros ? Hr; first [discriminate Hr | by injection Hr as <-]
         | vm_compute; reflexivity ]].

Lemma cells_alone :
  Forall (fun cx : nb unit * string =>
            wp (cx.1 []) (fun t o =>
              (forall a, o <> Done a) /\
              (forall e, o = Raised e -> e = NameError cx.2) /\
              calls t = []))
    cell_requirements.
Proof.
  unfold cell_requirements.
  repeat (apply List.Forall_cons;
          [cbn [fst snd];
           unfold cell_06, cell_08, cell_10, cell_12, cell_17, cell_20,
             cell_22, cell_25, cell_27, cell_29, cell_31;
           fold_post; repeat wp_step alone_leaf |]).
  apply List.Forall_nil.
Qed.

(** The eleven cells of [cell_requirements], which are the code cells
    from the masking to the saving except the direction-field figure
    (cell 14, which imports what it tests), each need an earlier cell: run
    on its own in a fresh kernel such a cell never finishes and makes no
    call, and unless an import fails first it stops with a [NameError]
    for the name listed with it.  For the tractogram figure (cell 29) the
    name is [has_fury], the error stored in the notebook's output. *)
Theorem cells_need_earlier_cells {World : Type}
    (lib : event -> World -> answer -> World -> Prop)
    (c : nb unit) (x : string) w t o w' :
  In (c, x) cell_requirements ->
  exec lib (c []) w t o w' ->
  (forall a, o <> Done a) /\
  (forall e, o = Raised e -> e = NameError x) /\
  calls t = [].
Proof.
  intros Hin H.
  pose proof cells_alone as Hall. rewrite List.Forall_forall in Hall.
  exact (wp_sound lib (c []) w t o w' H _ (Hall (c, x) Hin)).
Qed.

Lemma cells_need_earlier_cells_witness :
  (run toy_lib (cell_29 []) with_fury).1.2 = Raised (NameError "has_fury") /\
  calls (run toy_lib (cell_29 []) with_fury).1.1 = [].
Proof.
  split; [vm_compute; reflexivity|].
  exact (proj2 (proj2 (cells_need_earlier_cells (graph toy_lib)
                         cell_29 "has_fury" with_fury _ _ _
                         ltac:(cbn; tauto)
                         (run_is_exec toy_lib (cell_29 []) with_fury)))).
Defined.

Ltac figure_leaf :=
  idtac;
  forget_truthy_errors;
  split; [intros ? Hd; first [discriminate Hd
                             | eexists; split; [vm_compute; reflexivity|];
                               split; [eassumption | vm_compute; reflexivity]]
         | intros ? Hr; first [discriminate Hr
                              | injection Hr as <-;
                                first [ left; split; vm_compute; reflexivity
                                      | right; eexists; reflexivity ]]].

Lemma direction_figure_alone :
  wp (cell_14 []) (fun t o =>
    (forall a, o = Done a ->
       exists hf, imported "dipy.viz" "has_fury" t = Some hf /\
                  truthy hf = inr false /\ calls t = []) /\
    (forall e, o = Raised e ->
       (e = NameError "dti_peaks" /\ calls t = ["window.Scene"]) \/
       (exists m, e = ValueError m))).
Proof. unfold cell_14. fold_post. repeat wp_step figure_leaf. Qed.

(** The direction-field figure (cell 14) imports [has_fury] itself.  Run
    on its own in a fresh kernel it finishes exactly when [has_fury] is
    false, and then makes no call; when [has_fury] is true it opens a
    scene and stops with a [NameError] for [dti_peaks]. *)
Theorem direction_figure_needs_peaks_only_with_fury {World : Type}
    (lib : event -> World -> answer -> World -> Prop) w t o w' :
  exec lib (cell_14 []) w t o w' ->
  (forall a, o = Done a ->
     exists hf, imported "dipy.viz" "has_fury" t = Some hf /\
                truthy hf = inr false /\ calls t = []) /\
  (forall e, o = Raised e ->
     (e = NameError "dti_peaks" /\ calls t = ["window.Scene"]) \/
     (exists m, e = ValueError m)).
Proof.
  intros H. exact (wp_sound lib _ w t o w' H _ direction_figure_alone).
Qed.

Lemma direction_figure_needs_peaks_only_with_fury_witness :
  (run toy_lib (cell_14 []) with_fury).1.2 = Raised (NameError "dti_peaks") /\
  calls (run toy_lib (cell_14 []) with_fury).1.1 = ["window.Scene"].
Proof.
  split; [vm_compute; reflexivity|].
  destruct (proj2 (direction_figure_needs_peaks_only_with_fury
                     (graph toy_lib) with_fury _ _ _
                     (run_is_exec toy_lib (cell_14 []) with_fury))
              _ ltac:(vm_compute; reflexivity))
    as [[_ Hc]|[m Hm]]; [exact Hc | discriminate Hm].
Defined.

(** ** Exceptions of the notebook's own statements *)

Ltac unpack_shape :=
  match goal with
  | |- context [sequence_items ?v] =>
      match goal with
      | H : sequence_items v = _ |- _ => rewrite H
      end
  end;
  cbn; congruence.

Ltac own_error_leaf :=
  idtac;
  intros ? He;
  first
    [ discriminate He
    | injection He as <-;
      first
        [ left; eexists; split; [vm_compute; reflexivity | eassumption]
        | right; do 6 eexists;
          split; [vm_compute; reflexivity|];
          split; [first [ left; reflexivity
                        | right; left; reflexivity
                        | right; right; left; reflexivity
                        | right; right; right; left; reflexivity ]|];
          split; [unpack_shape|];
          eexists; first [left; reflexivity | right; reflexivity] ] ].

Lemma notebook_own_errors :
  wp notebook (fun t o =>
    forall e, o = Raised e ->
      (exists v, last t = Some (ImportFrom "dipy.viz" "has_fury", inl v) /\
                 truthy v = inl e) \/
      (exists c f args kw v n,
          last t = Some (Call c f args kw, inl v) /\
          In (c, n) unpacked_calls /\
          length <$> sequence_items v <> Some n /\
          exists m, e = ValueError m \/ e = TypeError m)).
Proof. unfold notebook. fold_post. repeat wp_step own_error_leaf. Qed.

(** The statements of the notebook can raise in two places only.  A run
    that ends with an exception of the notebook's own ends either at one
    of the four tuple assignments, with a [ValueError] or a [TypeError],
    when [get_fnames], [load_nifti], [read_bvals_bvecs] or [median_otsu]
    has returned something that does not unpack into the names on the
    left (three, three, two and two of them): a value that cannot be
    iterated over, or one with another number of items; or at the first
    test of [has_fury], when the value imported from [dipy.viz] has no
    truth value.  In particular no run ends in a [NameError]. *)
Theorem own_exceptions_come_from_unpacking_or_has_fury {World : Type}
    (lib : event -> World -> answer -> World -> Prop) w t e w' :
  exec lib notebook w t (Raised e) w' ->
  (exists v, last t = Some (ImportFrom "dipy.viz" "has_fury", inl v) /\
             truthy v = inl e) \/
  (exists c f args kw v n,
      last t = Some (Call c f args kw, inl v) /\
      In (c, n) unpacked_calls /\
      length <$> sequence_items v <> Some n /\
      exists m, e = ValueError m \/ e = TypeError m).
Proof.
  intros H.
  exact (wp_sound lib notebook w t _ w' H _ notebook_own_errors e eq_refl).
Qed.

Lemma own_exceptions_come_from_unpacking_or_has_fury_witness :
  (run toy_lib_two_values notebook with_fury).1.2
  = Raised (ValueError "not enough values to unpack") /\
  calls (run toy_lib_two_values notebook with_fury).1.1
  = ["get_fnames"; "load_nifti"].
Proof.
  assert (exec (graph toy_lib_two_values) notebook with_fury
            (run toy_lib_two_values notebook with_fury).1.1
            (Raised (ValueError "not enough values to unpack"))
            (run toy_lib_two_values notebook with_fury).2) as H.
  { apply run_exec. vm_compute. reflexivity. }
  destruct (own_exceptions_come_from_unpacking_or_has_fury _ _ _ _ _ H)
    as [(v & Hl & Ht)|(c & f & args & kw & v & n & Hl & _)];
    split; vm_compute; reflexivity.
Defined.

(** ** Where the arguments of the calls come from *)

Ltac flow_leaf :=
  repeat (split; [first [vm_compute; reflexivity | eassumption]|]);
  first [vm_compute; reflexivity | eassumption].

Lemma notebook_loading :
  completes notebook (fun t _ =>
    exists hardi labels f1 f2 f3 nifti dwi aff img bv bvals bvecs gtab
           otsu maskdata mask lv model,
      returned "get_fnames" t
      = [([VStr "stanford_hardi"], [], hardi);
         ([VStr "stanford_labels"], [], labels)] /\
      returned "load_nifti" t
      = [([f1], [("return_img", VBool true)], nifti)] /\
      returned "read_bvals_bvecs" t = [([f2; f3], [], bv)] /\
      returned "gradient_table" t = [([bvals; bvecs], [], gtab)] /\
      returned "median_otsu" t
      = [([dwi], [("vol_idx", VRange 0 9); ("numpass", VInt 1);
                  ("dilate", VInt 5)], otsu)] /\
      returned "load_nifti_data" t = [([labels], [], lv)] /\
      returned "TensorModel" t = [([gtab], [], model)] /\
      sequence_items hardi = Some [f1; f2; f3] /\
      sequence_items nifti = Some [dwi; aff; img] /\
      sequence_items bv = Some [bvals; bvecs] /\
      sequence_items otsu = Some [maskdata; mask]).
Proof.
  unfold notebook. fold_post. repeat completes_step.
  all: do 18 eexists; flow_leaf.
Qed.

(** In a finished run the loading cells are chained as written: the three
    file names returned for ['stanford_hardi'] go to [load_nifti] (the
    first, with [return_img=True]) and to [read_bvals_bvecs] (the other
    two); the b-values and b-vectors go to [gradient_table] and its table
    to [TensorModel]; the data of [load_nifti] go to [median_otsu] with
    [vol_idx=range(0, 9)], [numpass=1] and [dilate=5]; the file name
    returned for ['stanford_labels'] goes to [load_nifti_data]. *)
Theorem loading_cells_are_chained {World : Type}
    (lib : event -> World -> answer -> World -> Prop) w t a w' :
  exec lib notebook w t (Done a) w' ->
  exists hardi labels f1 f2 f3 nifti dwi aff img bv bvals bvecs gtab
         otsu maskdata mask lv model,
    returned "get_fnames" t
    = [([VStr "stanford_hardi"], [], hardi);
       ([VStr "stanford_labels"], [], labels)] /\
    returned "load_nifti" t
    = [([f1], [("return_img", VBool true)], nifti)] /\
    returned "read_bvals_bvecs" t = [([f2; f3], [], bv)] /\
    returned "gradient_table" t = [([bvals; bvecs], [], gtab)] /\
    returned "median_otsu" t
    = [([dwi], [("vol_idx", VRange 0 9); ("numpass", VInt 1);
                ("dilate", VInt 5)], otsu)] /\
    returned "load_nifti_data" t = [([labels], [], lv)] /\
    returned "TensorModel" t = [([gtab], [], model)] /\
    sequence_items hardi = Some [f1; f2; f3] /\
    sequence_items nifti = Some [dwi; aff; img] /\
    sequence_items bv = Some [bvals; bvecs] /\
    sequence_items otsu = Some [maskdata; mask].
Proof.
  intros H. exact (completes_sound lib notebook w t a w' H _ notebook_loading).
Qed.

Lemma loading_cells_are_chained_witness :
  exists f1 kw nifti,
    returned "load_nifti" (run toy_lib notebook with_fury).1.1
    = [([f1], kw, nifti)] /\ f1 = VStr "HARDI150.nii.gz".
Proof.
  destruct (loading_cells_are_chained (graph toy_lib) with_fury
              (run toy_lib notebook with_fury).1.1 _
              (run toy_lib notebook with_fury).2
              ltac:(apply toy_run_done; vm_compute; reflexivity))
    as (? & ? & f1 & ? & ? & nifti & ? & ? & ? & ? & ? & ? & ? & ? & ? & ?
        & ? & ? & _ & Hn & _).
  exists f1, [("return_img", VBool true)], nifti.
  split; [exact Hn|].
  vm_compute in Hn. by injection Hn as <- _.
Defined.

Lemma notebook_tracking :
  completes notebook (fun t _ =>
    exists otsu maskdata mask model sphere wm peaks fitm fit fa crit
           nargs nkw nifti dwi aff img sm seeds gen sl targs tkw,
      returned "median_otsu" t = [([dwi],
         [("vol_idx", VRange 0 9); ("numpass", VInt 1); ("dilate", VInt 5)],
         otsu)] /\
      returned "TensorModel" t = [(targs, tkw, model)] /\
      imported "dipy.data" "default_sphere" t = Some sphere /\
      returned "peaks_from_model" t
      = [([model; maskdata; sphere],
          [("relative_peak_threshold", VFloat 8 (-1));
           ("min_separation_angle", VInt 45); ("mask", wm)], peaks)] /\
      attribute_reads "fit" t = [(model, fitm)] /\
      returned "dti_model.fit" t = [([maskdata], [], fit)] /\
      attribute_reads "fa" t = [(fit, fa)] /\
      returned "ThresholdStoppingCriterion" t
      = [([fa; VFloat 2 (-1)], [], crit)] /\
      returned "load_nifti" t = [(nargs, nkw, nifti)] /\
      returned "utils.seeds_from_mask" t
      = [([sm; aff], [("density", VList [VInt 3; VInt 3; VInt 3])], seeds)] /\
      returned "LocalTracking" t
      = [([peaks; crit; seeds],
          [("affine", aff); ("step_size", VFloat 5 (-1))], gen)] /\
      returned "Streamlines" t = [([gen], [], sl)] /\
      sequence_items otsu = Some [maskdata; mask] /\
      sequence_items nifti = Some [dwi; aff; img]).
Proof.
  unfold notebook. fold_post. repeat completes_step.
  all: do 23 eexists; flow_leaf.
Qed.

(** In a finished run the tracking is built from the results of the cells
    before it: [peaks_from_model] gets the tensor model that [TensorModel]
    returned, the masked data of [median_otsu] and [default_sphere]; the same model is fitted to the
    same masked data, and the [fa] of the fit goes to
    [ThresholdStoppingCriterion]; [LocalTracking] gets those peaks, that
    criterion and the seeds of [seeds_from_mask], with the affine of
    [load_nifti] that placed the seeds; [Streamlines] gets its
    generator. *)
Theorem tracking_is_built_from_earlier_cells {World : Type}
    (lib : event -> World -> answer -> World -> Prop) w t a w' :
  exec lib notebook w t (Done a) w' ->
  exists otsu maskdata mask model sphere wm peaks fitm fit fa crit
         nargs nkw nifti dwi aff img sm seeds gen sl targs tkw,
    returned "median_otsu" t = [([dwi],
       [("vol_idx", VRange 0 9); ("numpass", VInt 1); ("dilate", VInt 5)],
       otsu)] /\
    returned "TensorModel" t = [(targs, tkw, model)] /\
    imported "dipy.data" "default_sphere" t = Some sphere /\
    returned "peaks_from_model" t
    = [([model; maskdata; sphere],
        [("relative_peak_threshold", VFloat 8 (-1));
         ("min_separation_angle", VInt 45); ("mask", wm)], peaks)] /\
    attribute_reads "fit" t = [(model, fitm)] /\
    returned "dti_model.fit" t = [([maskdata], [], fit)] /\
    attribute_reads "fa" t = [(fit, fa)] /\
    returned "ThresholdStoppingCriterion" t
    = [([fa; VFloat 2 (-1)], [], crit)] /\
    returned "load_nifti" t = [(nargs, nkw, nifti)] /\
    returned "utils.seeds_from_mask" t
    = [([sm; aff], [("density", VList [VInt 3; VInt 3; VInt 3])], seeds)] /\
    returned "LocalTracking" t
    = [([peaks; crit; seeds],
        [("affine", aff); ("step_size", VFloat 5 (-1))], gen)] /\
    returned "Streamlines" t = [([gen], [], sl)] /\
    sequence_items otsu = Some [maskdata; mask] /\
    sequence_items nifti = Some [dwi; aff; img].
Proof.
  intros H.
  exact (completes_sound lib notebook w t a w' H _ notebook_tracking).
Qed.

Lemma tracking_is_built_from_earlier_cells_witness :
  exists args gen,
    returned "LocalTracking" (run toy_lib notebook with_fury).1.1
    = [(args, [("affine", VObj 2); ("step_size", VFloat 5 (-1))], gen)].
Proof.
  destruct (tracking_is_built_from_earlier_cells (graph toy_lib) with_fury
              (run toy_lib notebook with_fury).1.1 _
              (run toy_lib notebook with_fury).2
              ltac:(apply toy_run_done; vm_compute; reflexivity))
    as (? & ? & ? & ? & ? & ? & peaks & ? & ? & ? & crit & ? & ? & ? & ?
        & aff & ? & ? & seeds & gen & ? & ? & ? & _ & _ & _ & _ & _ & _ & _
        & _ & _ & _ & Hl & _).
  exists [peaks; crit; seeds], gen.
  rewrite Hl. vm_compute in Hl. by injection Hl as _ _ _ -> _.
Defined.

(** ** The figures *)

Lemma notebook_figures :
  completes notebook (fun t _ =>
    exists hf b,
      imported "dipy.viz" "has_fury" t = Some hf /\
      truthy hf = inr b /\
      if b then
        exists pa pk peaks dirs vals slicer scene1 add1 r1 r2 r3
               sa sk sl c1 c2 line scene2 add2 r4 r5 r6,
          returned "peaks_from_model" t = [(pa, pk, peaks)] /\
          attribute_reads "peak_dirs" t = [(peaks, dirs)] /\
          attribute_reads "peak_values" t = [(peaks, vals)] /\
          returned "actor.peak_slicer" t
          = [([dirs; vals], [("colors", VNone)], slicer)] /\
          returned "Streamlines" t = [(sa, sk, sl)] /\
          returned "colormap.line_colors" t
          = [([sl], [], c1); ([sl], [], c2)] /\
          returned "actor.line" t = [([sl; c2], [], line)] /\
          returned "window.Scene" t = [([], [], scene1); ([], [], scene2)] /\
          attribute_reads "add" t = [(scene1, add1); (scene2, add2)] /\
          returned "scene.add" t = [([slicer], [], r1); ([line], [], r4)] /\
          returned "window.record" t
          = [([scene1], [("out_path", VStr "dti_direction_field.png");
                         ("size", VTuple [VInt 900; VInt 900])], r2);
             ([scene2], [("out_path", VStr "dti_tractogram.png");
                         ("size", VTuple [VInt 800; VInt 800])], r5)] /\
          returned "window.show" t
          = [([scene1], [("size", VTuple [VInt 800; VInt 800])], r3);
             ([scene2], [], r6)]
      else
        map fst (List.filter (fun en => visual (fst en)) t)
        = [ImportFrom "dipy.viz" "window"; ImportFrom "dipy.viz" "actor";
           ImportFrom "dipy.viz" "has_fury";
           ImportFrom "dipy.viz" "colormap"]).
Proof.
  unfold notebook. fold_post. repeat completes_step.
  all: eexists _, _; split; [vm_compute; reflexivity|];
       split; [eassumption|]; lazy beta iota;
       first [vm_compute; reflexivity | do 22 eexists; flow_leaf].
Qed.

(** The figures of a finished run.  When [has_fury] is true, two scenes
    are made; the first holds the peak slicer of the directions and
    values of the peaks and is recorded to 'dti_direction_field.png' at
    900 x 900 and shown at 800 x 800; the second, which takes over the
    name [scene], holds the line actor of the streamlines coloured by
    [line_colors] and is recorded to 'dti_tractogram.png' at 800 x 800
    and shown.  When [has_fury] is false, the four imports from
    [dipy.viz] are all that is left of the visualisation. *)
Theorem figures_of_a_run {World : Type}
    (lib : event -> World -> answer -> World -> Prop) w t a w' :
  exec lib notebook w t (Done a) w' ->
  exists hf b,
    imported "dipy.viz" "has_fury" t = Some hf /\
    truthy hf = inr b /\
    if b then
      exists pa pk peaks dirs vals slicer scene1 add1 r1 r2 r3
             sa sk sl c1 c2 line scene2 add2 r4 r5 r6,
        returned "peaks_from_model" t = [(pa, pk, peaks)] /\
        attribute_reads "peak_dirs" t = [(peaks, dirs)] /\
        attribute_reads "peak_values" t = [(peaks, vals)] /\
        returned "actor.peak_slicer" t
        = [([dirs; vals], [("colors", VNone)], slicer)] /\
        returned "Streamlines" t = [(sa, sk, sl)] /\
        returned "colormap.line_colors" t
        = [([sl], [], c1); ([sl], [], c2)] /\
        returned "actor.line" t = [([sl; c2], [], line)] /\
        returned "window.Scene" t = [([], [], scene1); ([], [], scene2)] /\
        attribute_reads "add" t = [(scene1, add1); (scene2, add2)] /\
        returned "scene.add" t = [([slicer], [], r1); ([line], [], r4)] /\
        returned "window.record" t
        = [([scene1], [("out_path", VStr "dti_direction_field.png");
                       ("size", VTuple [VInt 900; VInt 900])], r2);
           ([scene2], [("out_path", VStr "dti_tractogram.png");
                       ("size", VTuple [VInt 800; VInt 800])], r5)] /\
        returned "window.show" t
        = [([scene1], [("size", VTuple [VInt 800; VInt 800])], r3);
           ([scene2], [], r6)]
    else
      map fst (List.filter (fun en => visual (fst en)) t)
      = [ImportFrom "dipy.viz" "window"; ImportFrom "dipy.viz" "actor";
         ImportFrom "dipy.viz" "has_fury";
         ImportFrom "dipy.viz" "colormap"].
Proof.
  intros H. exact (completes_sound lib notebook w t a w' H _ notebook_figures).
Qed.

Lemma figures_of_a_run_witness :
  png_files (run toy_lib notebook with_fury).2
  = ["dti_direction_field.png"; "dti_tractogram.png"] /\
  exists hf b,
    imported "dipy.viz" "has_fury" (run toy_lib notebook with_fury).1.1
    = Some hf /\ truthy hf = inr b.
Proof.
  split; [vm_compute; reflexivity|].
  destruct (figures_of_a_run (graph toy_lib) with_fury
              (run toy_lib notebook with_fury).1.1 _
              (run toy_lib notebook with_fury).2
              ltac:(apply toy_run_done; vm_compute; reflexivity))
    as (hf & b & Hi & Ht & _).
  exists hf, b. split; assumption.
Defined.

(** ** The two masks *)

(** The seed mask [labels == 2] and the white-matter mask
    [(labels == 1) | (labels == 2)] have the shape and the number of
    items of the label volume; every seed voxel is a white-matter voxel,
    so seeds are placed only where peaks were extracted; a voxel
    labelled 1 is white matter but no seed voxel, and a voxel with any
    other label is in neither mask. *)
Theorem seed_voxels_lie_in_white_matter (lab : ndarray Z) :
  let seed_mask := array_eq_scalar lab 2 in
  let white_matter :=
    array_or (array_eq_scalar lab 1) (array_eq_scalar lab 2) in
  shape seed_mask = shape lab /\
  shape white_matter = shape lab /\
  length (items seed_mask) = length (items lab) /\
  length (items white_matter) = length (items lab) /\
  (forall i, items seed_mask !! i = Some true ->
             items white_matter !! i = Some true) /\
  (forall i, items lab !! i = Some 1%Z ->
             items white_matter !! i = Some true /\
             items seed_mask !! i = Some false) /\
  (forall i x, items lab !! i = Some x -> x <> 1%Z -> x <> 2%Z ->
               items white_matter !! i = Some false /\
               items seed_mask !! i = Some false).
Proof.
  cbn. repeat split.
  - by rewrite length_map.
  - rewrite length_zip_with, !length_map. lia.
  - intros i. rewrite lookup_zip_with, !list_lookup_fmap.
    destruct (items lab !! i) as [x|]; cbn; [|discriminate].
    intros [= ->]. by rewrite orb_true_r.
  - rewrite lookup_zip_with, !list_lookup_fmap, H. reflexivity.
  - rewrite list_lookup_fmap, H. reflexivity.
  - rewrite lookup_zip_with, !list_lookup_fmap, H. cbn.
    f_equal. apply orb_false_iff. split; by apply Z.eqb_neq.
  - rewrite list_lookup_fmap, H. cbn. f_equal. by apply Z.eqb_neq.
Qed.

(** ** What the kernel holds after a run *)

Lemma notebook_namespace :
  completes notebook (fun t a =>
    exists na nk nifti dwi aff img la lk labels pa pk peaks sa sk seeds
           fit fa ga gk gen ta tk sl fa' fk sft,
      returned "load_nifti" t = [(na, nk, nifti)] /\
      returned "load_nifti_data" t = [(la, lk, labels)] /\
      returned "peaks_from_model" t = [(pa, pk, peaks)] /\
      returned "utils.seeds_from_mask" t = [(sa, sk, seeds)] /\
      attribute_reads "fa" t = [(fit, fa)] /\
      returned "LocalTracking" t = [(ga, gk, gen)] /\
      returned "Streamlines" t = [(ta, tk, sl)] /\
      returned "StatefulTractogram" t = [(fa', fk, sft)] /\
      sequence_items nifti = Some [dwi; aff; img] /\
      lookup_name "data" a.2 = Some dwi /\
      lookup_name "affine" a.2 = Some aff /\
      lookup_name "hardi_img" a.2 = Some img /\
      lookup_name "labels" a.2 = Some labels /\
      lookup_name "dti_peaks" a.2 = Some peaks /\
      lookup_name "seeds" a.2 = Some seeds /\
      lookup_name "fa" a.2 = Some fa /\
      lookup_name "streamlines_generator" a.2 = Some gen /\
      lookup_name "streamlines" a.2 = Some sl /\
      lookup_name "sft" a.2 = Some sft).
Proof.
  unfold notebook. fold_post. repeat completes_step.
  all: do 26 eexists; flow_leaf.
Qed.

(** After a finished run the kernel still holds the results under the
    names of the source: [data], [affine] and [hardi_img] are the three
    items returned by [load_nifti], [labels] the label volume,
    [dti_peaks], [seeds], [fa], [streamlines_generator], [streamlines] and
    [sft] the results of the calls that made them; no later cell has
    rebound any of them. *)
Theorem results_stay_bound {World : Type}
    (lib : event -> World -> answer -> World -> Prop) w t a w' :
  exec lib notebook w t (Done a) w' ->
  exists na nk nifti dwi aff img la lk labels pa pk peaks sa sk seeds
         fit fa ga gk gen ta tk sl fa' fk sft,
    returned "load_nifti" t = [(na, nk, nifti)] /\
    returned "load_nifti_data" t = [(la, lk, labels)] /\
    returned "peaks_from_model" t = [(pa, pk, peaks)] /\
    returned "utils.seeds_from_mask" t = [(sa, sk, seeds)] /\
    attribute_reads "fa" t = [(fit, fa)] /\
    returned "LocalTracking" t = [(ga, gk, gen)] /\
    returned "Streamlines" t = [(ta, tk, sl)] /\
    returned "StatefulTractogram" t = [(fa', fk, sft)] /\
    sequence_items nifti = Some [dwi; aff; img] /\
    lookup_name "data" a.2 = Some dwi /\
    lookup_name "affine" a.2 = Some aff /\
    lookup_name "hardi_img" a.2 = Some img /\
    lookup_name "labels" a.2 = Some labels /\
    lookup_name "dti_peaks" a.2 = Some peaks /\
    lookup_name "seeds" a.2 = Some seeds /\
    lookup_name "fa" a.2 = Some fa /\
    lookup_name "streamlines_generator" a.2 = Some gen /\
    lookup_name "streamlines" a.2 = Some sl /\
    lookup_name "sft" a.2 = Some sft.
Proof.
  intros H.
  exact (completes_sound lib notebook w t a w' H _ notebook_namespace).
Qed.

Lemma results_stay_bound_witness :
  exists a,
    (run toy_lib notebook with_fury).1.2 = Done a /\
    lookup_name "streamlines" a.2 = Some (VObj 30).
Proof.
  eexists. split; [vm_compute; reflexivity|].
  destruct (results_stay_bound (graph toy_lib) with_fury
              (run toy_lib notebook with_fury).1.1 _
              (run toy_lib notebook with_fury).2
              ltac:(apply toy_run_done; vm_compute; reflexivity))
    as (? & ? & ? & ? & ? & ? & ? & ? & ? & ? & ? & ? & ? & ? & ? & ? & ?
        & ? & ? & ? & ? & ? & sl & ? & ? & ? & H).
  vm_compute. reflexivity.
Defined.

(** ** Running the notebook again *)

Lemma notebook_twice :
  completes (run_cells (code_cells ++ code_cells) []) (fun t _ =>
    calls (tractography t) = (pipeline_order ++ pipeline_order)%list /\
    length (returned "save_trk" t) = 2%nat).
Proof.
  unfold code_cells. cbn [app]. fold_post. repeat completes_step.
  all: split; vm_compute; reflexivity.
Qed.

(** Running all cells a second time in the same kernel, on top of the
    names the first pass has bound, goes through the pipeline again: a
    finished double run has made the sixteen pipeline calls twice, in
    order, and has saved the tractogram twice. *)
Theorem notebook_can_be_rerun {World : Type}
    (lib : event -> World -> answer -> World -> Prop) w t a w' :
  exec lib (run_cells (code_cells ++ code_cells) []) w t (Done a) w' ->
  calls (tractography t) = (pipeline_order ++ pipeline_order)%list /\
  length (returned "save_trk" t) = 2%nat.
Proof.
  intros H. exact (completes_sound lib _ w t a w' H _ notebook_twice).
Qed.

Lemma notebook_can_be_rerun_witness :
  trk_files (run toy_lib (run_cells (code_cells ++ code_cells) [])
               with_fury).2
  = ["dti_CC_tractography_deterministic.trk";
     "dti_CC_tractography_deterministic.trk"] /\
  length (returned "save_trk"
            (run toy_lib (run_cells (code_cells ++ code_cells) [])
               with_fury).1.1) = 2%nat.
Proof.
  split; [vm_compute; reflexivity|].
  refine (proj2 (notebook_can_be_rerun (graph toy_lib) with_fury _ _ _ _)).
  apply run_exec. vm_compute. reflexivity.
Defined.
